(** * afbmq: dispatcher and built-in filters

    A shallow embedding of [afbmq/dispatcher/dispatcher.py],
    [afbmq/dispatcher/filters/builtin.py] and [afbmq/types/*.py], and the
    properties of the dispatch core that are stated about them.

    Conventions.
    - Python [str] is [string]; the text model is ASCII (code points below
      128), which is where [str.lower], [str.split] and [str.isspace] are
      modelled.
    - Python [None] in an optional position is [None : option _].
    - A call that may raise returns [result]; a call that also reads or
      writes ambient state is a function on that state. *)

From Stdlib Require Import Ascii String ZArith Lia.
From stdpp Require Import base option list strings gmap.

Open Scope string_scope.

(** ** Exceptions and fallible calls *)

Inductive exn :=
| IndexError
| ValueError (msg : string)
| AttributeError (attr : string)
| HandlerError (name : string).

Inductive result (A : Type) :=
| Ok (a : A)
| Raise (e : exn).
Arguments Ok {A} a.
Arguments Raise {A} e.

#[global] Instance result_ret : MRet result := fun _ a => Ok a.
#[global] Instance result_bind : MBind result := fun _ _ f m =>
  match m with Ok a => f a | Raise e => Raise e end.

#[global] Instance result_fmap : FMap result := fun _ _ f m =>
  match m with Ok a => Ok (f a) | Raise e => Raise e end.

#[global] Instance exn_eq_dec : EqDecision exn.
Proof. solve_decision. Defined.

(** ** Python string operations *)

Module PyStr.

(** [c.isspace()] on ASCII: TAB..CR, FS..US and SPACE. *)
Definition isspace (c : ascii) : bool :=
  let n := nat_of_ascii c in
  ((9 <=? n)%nat && (n <=? 13)%nat) || ((28 <=? n)%nat && (n <=? 32)%nat).

Definition lower_char (c : ascii) : ascii :=
  let n := nat_of_ascii c in
  if ((65 <=? n)%nat && (n <=? 90)%nat) then ascii_of_nat (n + 32) else c.

(** [s.lower()] *)
Fixpoint lower (s : string) : string :=
  match s with
  | EmptyString => EmptyString
  | String c s' => String (lower_char c) (lower s')
  end.

(** [bool(s)]: a string is truthy when it is not empty. *)
Definition truthy (s : string) : bool :=
  match s with EmptyString => false | String _ _ => true end.

(** [s.split()]: the maximal runs of non-whitespace characters.  [tok] is the
    run being read. *)
Fixpoint split_acc (tok s : string) : list string :=
  match s with
  | EmptyString => if truthy tok then [tok] else []
  | String c s' =>
      if isspace c
      then (if truthy tok then tok :: split_acc EmptyString s'
            else split_acc EmptyString s')
      else split_acc (tok +:+ String c EmptyString) s'
  end.

Definition split (s : string) : list string := split_acc EmptyString s.

(** [s.partition(sep)] for a one-character separator. *)
Fixpoint partition (sep : ascii) (s : string) : string * string * string :=
  match s with
  | EmptyString => (EmptyString, EmptyString, EmptyString)
  | String c s' =>
      if Ascii.eqb c sep then (EmptyString, String sep EmptyString, s')
      else let '(a, m, b) := partition sep s' in (String c a, m, b)
  end.

(** [t.startswith(s)] *)
Fixpoint startswith (t s : string) {struct s} : bool :=
  match s, t with
  | EmptyString, _ => true
  | String a s', String b t' => Ascii.eqb a b && startswith t' s'
  | String _ _, EmptyString => false
  end.

(** [s in t] for strings: [s] occurs in [t] as a contiguous run. *)
Fixpoint contains (t s : string) : bool :=
  startswith t s ||
  match t with
  | EmptyString => false
  | String _ t' => contains t' s
  end.

(** [t.endswith(s)] *)
Fixpoint endswith (t s : string) : bool :=
  String.eqb t s ||
  match t with
  | EmptyString => false
  | String _ t' => endswith t' s
  end.

(** [sep.join(l)] *)
Fixpoint join (sep : string) (l : list string) : string :=
  match l with
  | [] => EmptyString
  | [x] => x
  | x :: l' => x +:+ sep +:+ join sep l'
  end.

(** [x in l] for a list of strings. *)
Definition mem (x : string) (l : list string) : bool := bool_decide (x ∈ l).

(** Every character of the string satisfies [p]. *)
Fixpoint all (p : ascii → bool) (s : string) : bool :=
  match s with
  | EmptyString => true
  | String c s' => p c && all p s'
  end.

Definition not_space (c : ascii) : bool := negb (isspace c).
Definition not_at (c : ascii) : bool := negb (Ascii.eqb c "@").

End PyStr.

(** ** Types ([afbmq/types]) *)

Record Sender := { sender_id : string }.
Record Recipient := { recipient_id : string }.

Record Event := {
  sender : Sender;
  recipient : Recipient;
  timestamp : Z }.

Record QuickReply := { payload : string }.
Record ReplyTo := { reply_mid : string }.
Record Attachment := { att_type : string }.

Record Message := {
  mid : string;
  text : string;
  attachments : option (list Attachment);
  quick_reply : option QuickReply;
  reply_to : option ReplyTo }.

Record MessageEvent := {
  event_base : Event;
  message : Message }.

(** A value that passes [isinstance(_, Event)]: an [Event] proper or the
    subclass [MessageEvent]. *)
Inductive eventobj :=
| PlainEvent (e : Event)
| MsgEvent (e : MessageEvent).

Definition event_of (o : eventobj) : Event :=
  match o with PlainEvent e => e | MsgEvent e => event_base e end.

Definition is_MessageEvent (o : eventobj) : bool :=
  match o with MsgEvent _ => true | PlainEvent _ => false end.

(** [Entry.messaging : List[Union[None, MessageEvent]]] *)
Record Entry := {
  entry_id : string;
  entry_time : Z;
  messaging : list (option eventobj) }.

(** [message.get_args()].  [Message] declares the fields [mid], [text],
    [attachments], [quick_reply], [reply_to] and the method [send_message];
    [FBObject] adds the property [fb].  No [get_args] is declared, so the
    attribute lookup raises. *)
Definition Message_get_args (m : Message) : result string :=
  Raise (AttributeError "get_args").

(** ** Values a filter hands to the handler *)

Record CommandObj := {
  cmd_prefix : string;
  cmd_command : string;
  cmd_mention : string;
  cmd_args : option string }.

(** Modelled from the spec: the FSM context ([storage.py] is not among the
    sources) is a lightweight handle [{storage_ref, chat_id, user_id}], not
    a copy of state.  [current_state] builds it as
    [FSMContext(storage=self.storage, chat=chat, user=user)]; the storage is
    the dispatcher's own. *)
Record FSMContext := {
  fsm_chat : option string;
  fsm_user : option string }.

(** A stored state name, or Python [None]. *)
Abbreviation pystate := (option string).

Inductive kwval :=
| KCommand (c : CommandObj)
| KMatch (m : string)
| KState (f : FSMContext)
| KRawState (s : pystate)
| KReply (r : ReplyTo).

(** What [check] returns: [False], [None], [True] or a dict of extra handler
    arguments. *)
Inductive fres :=
| FFalse
| FNone
| FTrue
| FDict (kw : list (string * kwval)).

Definition fres_truthy (r : fres) : bool :=
  match r with
  | FFalse | FNone => false
  | FTrue => true
  | FDict kw => match kw with [] => false | _ => true end
  end.

Definition fres_of_bool (b : bool) : fres := if b then FTrue else FFalse.

(** ** Command ([builtin.py], class [Command]) *)

Inductive str_or_list :=
| OneStr (s : string)
| StrList (l : list string).

(** [x in prefixes] where [prefixes] is a [str] or an iterable of [str]. *)
Definition in_str_or_list (x : string) (p : str_or_list) : bool :=
  match p with
  | OneStr s => PyStr.contains s x
  | StrList l => PyStr.mem x l
  end.

Record Command := {
  commands : list string;
  prefixes : str_or_list;
  ignore_case : bool;
  ignore_mention : bool }.

(** [(commands,)] for a [str], the iterable itself otherwise. *)
Definition str_list (x : str_or_list) : list string :=
  match x with OneStr s => [s] | StrList l => l end.

Definition Command_init (commands : str_or_list) (prefixes : str_or_list)
    (ignore_case ignore_mention : bool) : Command :=
  let commands := str_list commands in
  {| commands := if ignore_case then map PyStr.lower commands else commands;
     prefixes := prefixes;
     ignore_case := ignore_case;
     ignore_mention := ignore_mention |}.

(** [Command.check_command].  [me] is the outcome of
    [(await message.fb.me).username], which is evaluated only when the
    command carries a mention that is not ignored. *)
Definition check_command (me : result string) (message : Message)
    (commands : list string) (prefixes : str_or_list)
    (ignore_case ignore_mention : bool) : result fres :=
  if negb (PyStr.truthy (text message)) then Ok FFalse else
  match PyStr.split (text message) with
  | [] => Raise IndexError
  | EmptyString :: _ => Raise IndexError
  | String p rest :: _ =>
      let prefix := String p EmptyString in
      let '(command, _, mention) := PyStr.partition "@" rest in
      other ← (if negb ignore_mention && PyStr.truthy mention
               then username ← me;
                    Ok (negb (String.eqb (PyStr.lower username) (PyStr.lower mention)))
               else Ok false);
      if (other : bool) then Ok FFalse
      else if negb (in_str_or_list prefix prefixes) then Ok FFalse
      else if negb (PyStr.mem (if ignore_case then PyStr.lower command else command)
                              commands)
      then Ok FFalse
      else Ok (FDict [("command",
                       KCommand {| cmd_prefix := prefix; cmd_command := command;
                                   cmd_mention := mention; cmd_args := None |})])
  end.

Definition Command_check (me : result string) (self : Command)
    (event : eventobj) (message : Message) : result fres :=
  check_command me message (commands self) (prefixes self)
                (ignore_case self) (ignore_mention self).

(** ** CommandStart *)

(** A compiled regular expression, seen through [pattern.match(s)]: [None] or
    a match object, which is represented by the text it matched. *)
Record Pattern := { pattern_match : string → option string }.

Inductive deep_link_t :=
| DeepStr (s : string)
| DeepPattern (p : Pattern).

Record CommandStart := {
  start_command : Command;
  deep_link : option deep_link_t }.

Definition CommandStart_init (deep_link : option deep_link_t) : CommandStart :=
  {| start_command := Command_init (StrList ["start"]) (OneStr "/") true false;
     deep_link := deep_link |}.

Definition CommandStart_check (me : result string) (self : CommandStart)
    (event : eventobj) (message : Message) : result fres :=
  check ← Command_check me (start_command self) event message;
  match deep_link self with
  | Some dl =>
      if fres_truthy check then
        match dl with
        | DeepStr s =>
            args ← Message_get_args message;
            Ok (fres_of_bool (String.eqb args s))
        | DeepPattern p =>
            args ← Message_get_args message;
            match pattern_match p args with
            | Some m => Ok (FDict [("deep_link", KMatch m)])
            | None => Ok FFalse
            end
        end
      else Ok check
  | None => Ok check
  end.

(** ** Text ([builtin.py], class [Text]) *)

Record Text := {
  equals : option (list string);
  contains : option (list string);
  startswith : option (list string);
  endswith : option (list string);
  text_ignore_case : bool }.

(** [[e] if isinstance(e, str) else e] under an optional argument. *)
Definition normalize (e : option str_or_list) : option (list string) :=
  match e with
  | None => None
  | Some (OneStr s) => Some [s]
  | Some (StrList l) => Some l
  end.

Definition given {A} (o : option A) : bool :=
  match o with Some _ => true | None => false end.

Definition Text_init (equals contains startswith endswith : option str_or_list)
    (ignore_case : bool) : result Text :=
  let check :=
    sum_list (map (fun s => if given s then 1 else 0)
                  [equals; contains; startswith; endswith]) in
  if (1 <? check)%nat then
    let args :=
      PyStr.join "' and '"
        (map fst (filter (fun arg => given arg.2 = true)
                         [("equals", equals); ("contains", contains);
                          ("startswith", startswith); ("endswith", endswith)])) in
    Raise (ValueError ("Arguments '" +:+ args +:+ "' cannot be used together."))
  else if (check =? 0)%nat then
    Raise (ValueError "No one mode is specified!")
  else
    Ok {| equals := normalize equals;
          contains := normalize contains;
          startswith := normalize startswith;
          endswith := normalize endswith;
          text_ignore_case := ignore_case |}.

(** The case folding a [Text] filter applies to the text and to its
    patterns: [str.lower] under [ignore_case], nothing otherwise. *)
Definition fold_case (ic : bool) : string → string :=
  if ic then PyStr.lower else (fun s => s).

Definition Text_check (self : Text) (event : eventobj) (obj : Message) : fres :=
  if negb (is_MessageEvent event) then FFalse else
  let text := text obj in
  let text := if text_ignore_case self then PyStr.lower text else text in
  let _pre_process_func :=
    if text_ignore_case self then PyStr.lower else (fun s => s) in
  match equals self with
  | Some l => fres_of_bool (PyStr.mem text (map _pre_process_func l))
  | None =>
  match contains self with
  | Some l => fres_of_bool (forallb (PyStr.contains text) (map _pre_process_func l))
  | None =>
  match startswith self with
  | Some l => fres_of_bool (existsb (PyStr.startswith text) (map _pre_process_func l))
  | None =>
  match endswith self with
  | Some l => fres_of_bool (existsb (PyStr.endswith text) (map _pre_process_func l))
  | None => FFalse
  end end end end.

(** ** IDFilter ([builtin.py], class [IDFilter]) *)

(** Python values that occur as ids: [int] and [str]. *)
Inductive pyval :=
| PInt (z : Z)
| PStr (s : string).

(** [a == b]: an [int] and a [str] are never equal. *)
Definition py_eqb (a b : pyval) : bool :=
  match a, b with
  | PInt x, PInt y => Z.eqb x y
  | PStr x, PStr y => String.eqb x y
  | _, _ => false
  end.

(** [x in l] *)
Definition py_in (x : pyval) (l : list pyval) : bool := existsb (py_eqb x) l.

Module PyInt.

Definition digit (c : ascii) : option Z :=
  let n := nat_of_ascii c in
  if ((48 <=? n)%nat && (n <=? 57)%nat) then Some (Z.of_nat (n - 48)) else None.

(** The characters [int] skips before and after the literal: TAB, LF, VT,
    FF, CR and SPACE.  FS..US, which [str.isspace] accepts, are not among
    them: [int] raises [ValueError] on a string that holds one. *)
Definition isspace (c : ascii) : bool :=
  let n := nat_of_ascii c in
  ((9 <=? n)%nat && (n <=? 13)%nat) || (n =? 32)%nat.

Fixpoint lstrip (s : string) : string :=
  match s with
  | String c s' => if isspace c then lstrip s' else s
  | EmptyString => EmptyString
  end.

Definition strip (s : string) : string :=
  String.rev (lstrip (String.rev (lstrip s))).

(** Decimal digits with single underscores between them.  [after_digit]
    tells whether the previous character was a digit. *)
Fixpoint digits (acc : Z) (after_digit : bool) (s : string) : option Z :=
  match s with
  | EmptyString => if after_digit then Some acc else None
  | String c s' =>
      match digit c with
      | Some d => digits (10 * acc + d)%Z true s'
      | None =>
          if Ascii.eqb c "_" && after_digit
          then match s' with
               | String c' _ => if given (digit c') then digits acc false s' else None
               | EmptyString => None
               end
          else None
      end
  end.

(** [int(s)] for a [str]. *)
Definition of_string (s : string) : result Z :=
  let bad := Raise (ValueError ("invalid literal for int() with base 10: '" +:+ s +:+ "'")) in
  match strip s with
  | String "-" r => match digits 0 false r with Some z => Ok (- z)%Z | None => bad end
  | String "+" r => match digits 0 false r with Some z => Ok z | None => bad end
  | r => match digits 0 false r with Some z => Ok z | None => bad end
  end.

(** [int(x)] *)
Definition int (x : pyval) : result Z :=
  match x with
  | PInt z => Ok z
  | PStr s => of_string s
  end.

End PyInt.

(** An id argument: one [int], one [str] or an iterable of them.  The
    iterable is a sized container ([IdMany]: a list, tuple or set, with its
    items in iteration order) or an iterable without a length, such as an
    iterator or a generator ([IdIter], with the items it yields). *)
Inductive id_arg :=
| IdOne (x : pyval)
| IdMany (l : list pyval)
| IdIter (l : list pyval).

(** [bool(x)] for an id argument: a number is falsy when it is zero, a
    [str] or a sized container when it is empty; an iterator or generator
    defines neither [__bool__] nor [__len__] and is always truthy. *)
Definition id_arg_truthy (a : id_arg) : bool :=
  match a with
  | IdOne (PInt z) => negb (Z.eqb z 0)
  | IdOne (PStr s) => PyStr.truthy s
  | IdMany l => match l with [] => false | _ => true end
  | IdIter _ => true
  end.

(** The characters of a [str], as iterating over it gives them. *)
Fixpoint chars (s : string) : list pyval :=
  match s with
  | EmptyString => []
  | String c s' => PStr (String c EmptyString) :: chars s'
  end.

(** [list(map(int, x))] if [x] is iterable (a [str] is), else [[int(x)]]. *)
Definition id_list (a : id_arg) : result (list Z) :=
  match a with
  | IdOne (PInt z) => Ok [z]
  | IdOne (PStr s) => mapM PyInt.int (chars s)
  | IdMany l => mapM PyInt.int l
  | IdIter l => mapM PyInt.int l
  end.

Record IDFilter := {
  user_id : option (list Z);
  chat_id : option (list Z) }.

Definition IDFilter_init (user_id chat_id : option id_arg) : result IDFilter :=
  if negb (given user_id) && negb (given chat_id)
  then Raise (ValueError "Both user_id and chat_id can't be None")
  else
    u ← match user_id with
        | Some a => if id_arg_truthy a then Some <$> id_list a else Ok None
        | None => Ok None
        end;
    c ← match chat_id with
        | Some a => if id_arg_truthy a then Some <$> id_list a else Ok None
        | None => Ok None
        end;
    Ok {| user_id := u; chat_id := c |}.

(** [bool(self.user_id)]: [None] and the empty list are falsy. *)
Definition ids_truthy (o : option (list Z)) : bool :=
  match o with Some (_ :: _) => true | _ => false end.

Definition ids (o : option (list Z)) : list pyval :=
  match o with Some l => map PInt l | None => [] end.

(** [IDFilter.check]; [Sender.id] and [Recipient.id] are declared [str]. *)
Definition IDFilter_check (self : IDFilter) (event : eventobj) (obj : Message) : fres :=
  let user_id' := PStr (sender_id (sender (event_of event))) in
  let chat_id' := PStr (recipient_id (recipient (event_of event))) in
  if ids_truthy (user_id self) && ids_truthy (chat_id self)
  then fres_of_bool (py_in user_id' (ids (user_id self)) && py_in chat_id' (ids (chat_id self)))
  else if ids_truthy (user_id self)
  then fres_of_bool (py_in user_id' (ids (user_id self)))
  else if ids_truthy (chat_id self)
  then fres_of_bool (py_in chat_id' (ids (chat_id self)))
  else FFalse.

(** ** Regexp and IsReplyFilter *)

(** [regexp.search(content)], as [pattern_match] above. *)
Record Regexp := { regexp_search : string → option string }.

Definition Regexp_check (self : Regexp) (event : eventobj) (obj : Message) : fres :=
  if negb (is_MessageEvent event) then FFalse else
  match regexp_search self (text obj) with
  | Some m => FDict [("regexp", KMatch m)]
  | None => FFalse
  end.

Record IsReplyFilter := { is_reply : bool }.

Definition IsReplyFilter_check (self : IsReplyFilter) (event : eventobj)
    (msg : Message) : fres :=
  match reply_to msg with
  | Some r => if is_reply self then FDict [("reply", KReply r)] else FNone
  | None => if is_reply self then FNone else FTrue
  end.

(** ** Ambient state of a dispatch *)

(** Modelled from the spec: the storage collaborator ([storage.py] is not
    among the sources).  Key [(chat_id, user_id)] maps to a record with the
    state name, [string] or null, and a data mapping; a key is absent until
    its first write. *)
Record StateRecord := {
  state_name : pystate;
  state_data : gmap string string }.

Abbreviation Storage := (gmap (option string * option string) StateRecord).

(** Modelled from the spec: [get_state(chat, user) -> state_name|null]. *)
Definition get_state (st : Storage) (chat user : option string) : pystate :=
  st !! (chat, user) ≫= state_name.

(** Modelled from the spec: the stateless no-op storage, which always reports
    "no state". *)
Definition DisabledStorage : Storage := ∅.

(** Values kept in [task.context]. *)
Inductive ctxval :=
| CStr (s : string)
| CBool (b : bool)
| CEvent (e : eventobj)
| CRequest.

Definition EVENT_OBJECT : string := "event_object".

(** Modelled from the spec: the ambient values of a dispatch are scoped to
    the concurrent task ([utils/mixins.py] and [utils/context.py] are not
    among the sources).  They are the context variables
    [Recipient.get_current()], [Sender.get_current()] and
    [StateFilter.ctx_state] ([None]: not set, [get] raises [LookupError]),
    and the attribute [task.context], the per-task stash that [webhook.py]
    fills through [context.update_state] and that [process_response]
    reads.  A task of [asyncio] has no such attribute ([context] is [None]
    then, and reading [task.context] raises [AttributeError]) unless the
    factory of the loop or the task itself has set it. *)
Record Local := {
  current_recipient : option Recipient;
  current_sender : option Sender;
  ctx_state : option pystate;
  context : option (gmap string ctxval) }.

(** How the loop makes its tasks.  [PlainTasks] is the loop as [asyncio]
    provides it: nothing in these sources calls [loop.set_task_factory].
    [ContextTasks] is a loop on which a factory has been installed that
    gives every new task a [context] attribute, which is what
    [process_response] expects of a task. *)
Inductive task_factory :=
| PlainTasks
| ContextTasks.

(** What a new task starts with, when the task that creates it has the
    values [l].  The context variables are copied, as [asyncio] does for
    every task.  Modelled from the spec: with [ContextTasks] the new task
    gets a copy of the [context] mapping of its creator, an empty mapping
    when the creator has none; with [PlainTasks] it gets no [context]
    attribute. *)
Definition child_local (factory : task_factory) (l : Local) : Local :=
  {| current_recipient := current_recipient l;
     current_sender := current_sender l;
     ctx_state := ctx_state l;
     context := match factory with
                | PlainTasks => None
                | ContextTasks => Some (default ∅ (context l))
                end |}.

(** What a handler returns. *)
Inductive pyret :=
| RNone
| RVal (v : string).

(** A coroutine handed to [loop.create_task]: a handler call, given by what
    it returns or raises, with [process_response] as its done callback; or
    [errors_handlers.notify(self, event, e)]. *)
Inductive coro :=
| HandlerCall (outcome : result pyret)
| ErrorsNotify (event : option ctxval) (e : exn).

Record Task := {
  task_coro : coro;
  task_local : Local }.

(** [task.context]: [None] when the task has no such attribute. *)
Definition task_context (t : Task) : option (gmap string ctxval) :=
  context (task_local t).

(** What all tasks share: the storage with the log of its reads, the tasks
    of the loop that have not run yet, the task factory of the loop, and
    ghost logs: the handlers of the message chain that were invoked
    (position in the chain and event), the notifications the error chain
    received (its [event] and [exception] arguments; [self] is the
    dispatcher), and the exceptions that done callbacks raised, which the
    loop hands to its exception handler. *)
Record Shared := {
  storage : Storage;
  get_state_calls : list (option string * option string);
  pending : list Task;
  invoked : list (nat * eventobj);
  error_notifications : list (option ctxval * exn);
  error_handlers_invoked : list nat;
  loop_factory : task_factory;
  callback_errors : list exn }.

Definition M (A : Type) : Type := Local → Shared → result A * Local * Shared.

#[global] Instance M_ret : MRet M := fun _ a l s => (Ok a, l, s).
#[global] Instance M_bind : MBind M := fun _ _ f m l s =>
  match m l s with
  | (Ok a, l', s') => f a l' s'
  | (Raise e, l', s') => (Raise e, l', s')
  end.

Definition lift {A} (r : result A) : M A := fun l s => (r, l, s).
Definition get_local : M Local := fun l s => (Ok l, l, s).
Definition put_local (l : Local) : M unit := fun _ s => (Ok tt, l, s).

(** [await self.dispatcher.storage.get_state(chat=chat, user=user)] *)
Definition storage_get_state (chat user : option string) : M pystate :=
  fun l s =>
    (Ok (get_state (storage s) chat user), l,
     {| storage := storage s;
        get_state_calls := get_state_calls s ++ [(chat, user)];
        pending := pending s;
        invoked := invoked s;
        error_notifications := error_notifications s;
        error_handlers_invoked := error_handlers_invoked s;
        loop_factory := loop_factory s;
        callback_errors := callback_errors s |}).

(** [self.loop.create_task(coro)]: the factory of the loop makes the task. *)
Definition create_task (c : coro) : M unit :=
  fun l s =>
    (Ok tt, l,
     {| storage := storage s;
        get_state_calls := get_state_calls s;
        pending := pending s ++ [{| task_coro := c;
                                    task_local := child_local (loop_factory s) l |}];
        invoked := invoked s;
        error_notifications := error_notifications s;
        error_handlers_invoked := error_handlers_invoked s;
        loop_factory := loop_factory s;
        callback_errors := callback_errors s |}).

(** [Dispatcher.current_state()] without arguments. *)
Definition current_state : M FSMContext :=
  fun l s =>
    (Ok {| fsm_chat := recipient_id <$> current_recipient l;
           fsm_user := sender_id <$> current_sender l |}, l, s).

(** ** StateFilter ([builtin.py], class [StateFilter]) *)

(** An item of the [state] argument: a plain value, a [State] object (its
    [state] attribute) or a [StatesGroup] class (its [all_states_names]). *)
Inductive state_item :=
| ItemRaw (s : pystate)
| ItemState (s : pystate)
| ItemGroup (all_states_names : list string).

Inductive state_arg :=
| StateOne (i : state_item)
| StateMany (l : list state_item).

Record StateFilter := { states : list pystate }.

Definition StateFilter_init (state : state_arg) : StateFilter :=
  let state := match state with StateOne i => [i] | StateMany l => l end in
  {| states :=
       flat_map (fun item =>
                   match item with
                   | ItemRaw s => [s]
                   | ItemState s => [s]
                   | ItemGroup names => map Some names
                   end) state |}.

Definition get_target (obj : eventobj) : option string * option string :=
  (Some (recipient_id (recipient (event_of obj))),
   Some (sender_id (sender (event_of obj)))).

(** [bool(x)] for [x] a [str] or [None]. *)
Definition opt_truthy (x : option string) : bool :=
  match x with Some s => PyStr.truthy s | None => false end.

Definition state_in (state : pystate) (l : list pystate) : bool :=
  bool_decide (state ∈ l).

Definition StateFilter_check (self : StateFilter) (event : eventobj)
    (obj : Message) : M fres :=
  if state_in (Some "*") (states self) then
    st ← current_state;
    mret (FDict [("state", KState st)])
  else
    l ← get_local;
    match ctx_state l with
    | None =>
        let '(chat, user) := get_target event in
        if opt_truthy chat || opt_truthy user then
          state ← storage_get_state chat user;
          l ← get_local;
          put_local {| current_recipient := current_recipient l;
                       current_sender := current_sender l;
                       ctx_state := Some state;
                       context := context l |};;
          if state_in state (states self) then
            st ← current_state;
            mret (FDict [("state", KState st); ("raw_state", KRawState state)])
          else mret FFalse
        else mret FFalse
    | Some state =>
        if state_in state (states self) then
          st ← current_state;
          mret (FDict [("state", KState st); ("raw_state", KRawState state)])
        else mret FFalse
    end.

(** ** Filter sets and handler chains *)

Abbreviation kwargs := (list (string * kwval)).

(** [d[k] = v] on a dict kept as an association list in insertion order. *)
Fixpoint dict_set (k : string) (v : kwval) (d : kwargs) : kwargs :=
  match d with
  | [] => [(k, v)]
  | (k', v') :: d' =>
      if String.eqb k k' then (k, v) :: d' else (k', v') :: dict_set k v d'
  end.

(** [d.update(u)] *)
Definition dict_update (d u : kwargs) : kwargs :=
  foldl (fun acc kv => dict_set kv.1 kv.2 acc) d u.

(** The filters a handler can be registered with: the built-in ones and any
    other object with a [check] method. *)
Inductive AbstractFilter :=
| FCommand (f : Command)
| FCommandStart (f : CommandStart)
| FText (f : Text)
| FRegexp (f : Regexp)
| FState (f : StateFilter)
| FID (f : IDFilter)
| FIsReply (f : IsReplyFilter)
| FCustom (check : eventobj → Message → result fres).

(** [await filter.check(event, message)] *)
Definition execute_filter (me : result string) (f : AbstractFilter) (event : eventobj)
    (message : Message) : M fres :=
  match f with
  | FCommand f => lift (Command_check me f event message)
  | FCommandStart f => lift (CommandStart_check me f event message)
  | FText f => mret (Text_check f event message)
  | FRegexp f => mret (Regexp_check f event message)
  | FState f => StateFilter_check f event message
  | FID f => mret (IDFilter_check f event message)
  | FIsReply f => mret (IsReplyFilter_check f event message)
  | FCustom check => lift (check event message)
  end.

(** Modelled from the spec: filter evaluation for a handler entry
    ([filters.py] is not among the sources) is a logical AND across its
    filter set, in order; a filter returning a falsy value short-circuits the
    rest; a filter returning a mapping contributes its keys as extra handler
    arguments.  [None] is "not accepted". *)
Fixpoint check_filters (me : result string) (filters : list AbstractFilter)
    (event : eventobj) (message : Message) : M (option kwargs) :=
  match filters with
  | [] => mret (Some [])
  | f :: filters' =>
      r ← execute_filter me f event message;
      if fres_truthy r then
        rest ← check_filters me filters' event message;
        mret ((fun kw : kwargs => match r with FDict d => dict_update d kw | _ => kw end)
              <$> rest)
      else mret None
  end.

(** A handler body, given by what it returns or raises on its arguments. *)
Definition callback : Type := eventobj → Message → kwargs → result pyret.

(** What is registered in a chain: the callback itself, or the [wrapper]
    that [async_task] builds around it. *)
Inductive registered :=
| Inline (callback : callback)
| Wrapper (func : callback).

(** [Dispatcher.async_task]: [wrapper] creates a task for the call
    of [func] on its arguments, attaches [process_response] to it and returns [None]. *)
Definition async_task (func : callback) : registered := Wrapper func.

Definition call (r : registered) (event : eventobj) (message : Message)
    (kw : kwargs) : M pyret :=
  match r with
  | Inline callback => lift (callback event message kw)
  | Wrapper func => create_task (HandlerCall (func event message kw));; mret RNone
  end.

(** [process_response(task)], the done callback: [task.result()] re-raises
    what the handler raised, and the error chain is notified in a new
    task with [task.context.get(EVENT_OBJECT, None)] and the exception.
    The arguments of [notify] are evaluated first: on a task without a
    [context] attribute the callback itself raises [AttributeError], and
    neither the coroutine nor the task is created. *)
Definition process_response (task : Task) (outcome : result pyret) : M unit :=
  match outcome with
  | Ok _ => mret tt
  | Raise e =>
      match task_context task with
      | Some ctx => create_task (ErrorsNotify (ctx !! EVENT_OBJECT) e)
      | None => lift (Raise (AttributeError "context"))
      end
  end.

Record HandlerObj := {
  handler : registered;
  filters : list AbstractFilter }.

Record ErrorHandlerObj := {
  error_filter : option ctxval → exn → bool;
  error_handler : option ctxval → exn → result pyret }.

Record Dispatcher := {
  me : result string;
  run_tasks_by_default : bool;
  message_handlers : list HandlerObj;
  errors_handlers : list ErrorHandlerObj }.

(** [Dispatcher.__init__]; [me] stands for the identity of [fb]. *)
Definition Dispatcher_init (me : result string) : Dispatcher :=
  {| me := me; run_tasks_by_default := true;
     message_handlers := []; errors_handlers := [] |}.

Definition _wrap_async_task (self : Dispatcher) (callback : callback)
    (run_task : option bool) : registered :=
  let run_task := default (run_tasks_by_default self) run_task in
  if run_task then async_task callback else Inline callback.

(** [register_message_handler]; [filters_set] is what
    [filters_factory.resolve] returns for the registration. *)
Definition register_message_handler (self : Dispatcher) (callback : callback)
    (filters_set : list AbstractFilter) (run_task : option bool) : Dispatcher :=
  {| me := me self; run_tasks_by_default := run_tasks_by_default self;
     message_handlers :=
       message_handlers self ++
       [{| handler := _wrap_async_task self callback run_task;
           filters := filters_set |}];
     errors_handlers := errors_handlers self |}.

Definition log_invoked (i : nat) (event : eventobj) : M unit :=
  fun l s =>
    (Ok tt, l,
     {| storage := storage s;
        get_state_calls := get_state_calls s;
        pending := pending s;
        invoked := invoked s ++ [(i, event)];
        error_notifications := error_notifications s;
        error_handlers_invoked := error_handlers_invoked s;
        loop_factory := loop_factory s;
        callback_errors := callback_errors s |}).

(** Modelled from the spec: [notify] of a [once=True] chain ([handler.py] is
    not among the sources) evaluates the entries in order; for the first
    entry whose every filter accepts it invokes the callback with the
    positional arguments and the merged mappings, stops and returns the
    callback's result; with no matching entry it is a no-op.  [i] is the
    position of the first entry of [handlers] in the chain. *)
Fixpoint notify_from (me : result string) (handlers : list HandlerObj) (i : nat)
    (event : eventobj) (message : Message) : M (option pyret) :=
  match handlers with
  | [] => mret None
  | h :: handlers' =>
      data ← check_filters me (filters h) event message;
      match data with
      | Some kw =>
          log_invoked i event;;
          r ← call (handler h) event message kw;
          mret (Some r)
      | None => notify_from me handlers' (S i) event message
      end
  end.

Definition message_handlers_notify (self : Dispatcher) (event : eventobj)
    (message : Message) : M (option pyret) :=
  notify_from (me self) (message_handlers self) 0 event message.

Definition log_error_notification (event : option ctxval) (e : exn) : M unit :=
  fun l s =>
    (Ok tt, l,
     {| storage := storage s;
        get_state_calls := get_state_calls s;
        pending := pending s;
        invoked := invoked s;
        error_notifications := error_notifications s ++ [(event, e)];
        error_handlers_invoked := error_handlers_invoked s;
        loop_factory := loop_factory s;
        callback_errors := callback_errors s |}).

Definition log_error_handler (i : nat) : M unit :=
  fun l s =>
    (Ok tt, l,
     {| storage := storage s;
        get_state_calls := get_state_calls s;
        pending := pending s;
        invoked := invoked s;
        error_notifications := error_notifications s;
        error_handlers_invoked := error_handlers_invoked s ++ [i];
        loop_factory := loop_factory s;
        callback_errors := callback_errors s |}).

(** Modelled from the spec: [notify] of the [once=False] error chain
    evaluates and invokes every matching entry, independent of previous
    results, and collects all results. *)
Fixpoint notify_all_from (handlers : list ErrorHandlerObj) (i : nat)
    (event : option ctxval) (e : exn) : M (list pyret) :=
  match handlers with
  | [] => mret []
  | h :: handlers' =>
      if error_filter h event e then
        log_error_handler i;;
        r ← lift (error_handler h event e);
        rs ← notify_all_from handlers' (S i) event e;
        mret (r :: rs)
      else notify_all_from handlers' (S i) event e
  end.

(** [self.errors_handlers.notify(self, event, e)] *)
Definition errors_handlers_notify (self : Dispatcher) (event : option ctxval)
    (e : exn) : M (list pyret) :=
  log_error_notification event e;;
  notify_all_from (errors_handlers self) 0 event e.

(** ** Dispatcher ([dispatcher.py]) *)

(** [Dispatcher.process_event] *)
Definition process_event (self : Dispatcher) (event : eventobj) : M (option pyret) :=
  match event with
  | MsgEvent e =>
      l ← get_local;
      put_local {| current_recipient := Some (recipient (event_of event));
                   current_sender := current_sender l;
                   ctx_state := ctx_state l;
                   context := context l |};;
      l ← get_local;
      put_local {| current_recipient := current_recipient l;
                   current_sender := Some (sender (event_of event));
                   ctx_state := ctx_state l;
                   context := context l |};;
      message_handlers_notify self event (message e)
  | PlainEvent _ => mret None
  end.

(** [self.events_handler.notify(event)]: the events chain holds the one
    entry that [__init__] registers, [process_event], with no filter. *)
Definition events_handler_notify (self : Dispatcher) (event : eventobj)
    : M (option pyret) :=
  process_event self event.

(** The [for] loop of [process_entries]: [entry.messaging[0]] raises
    [IndexError] on an empty list; the first slot is kept when it is a
    [MessageEvent]. *)
Fixpoint collect (entries : list Entry) : result (list eventobj) :=
  match entries with
  | [] => Ok []
  | entry :: entries' =>
      match messaging entry !! 0%nat with
      | None => Raise IndexError
      | Some event =>
          match event with
          | Some (MsgEvent e) => cons (MsgEvent e) <$> collect entries'
          | _ => collect entries'
          end
      end
  end.

(** [await asyncio.gather] over [tasks]: every coroutine runs as a task of its
    own, which the loop makes from the caller's task; all of them run, and
    the first exception, if any, is the outcome.  The tasks are scheduled
    one after the other, in the order of the list. *)
Fixpoint gather {A} (tasks : list (M A)) : M (list A) :=
  fun l s =>
    match tasks with
    | [] => (Ok [], l, s)
    | t :: tasks' =>
        let '(r, _, s1) := t (child_local (loop_factory s) l) s in
        let '(rs, _, s2) := gather tasks' l s1 in
        (match r, rs with
         | Ok a, Ok rest => Ok (a :: rest)
         | Raise e, _ => Raise e
         | Ok _, Raise e => Raise e
         end, l, s2)
    end.

(** [Dispatcher.process_entries] *)
Definition process_entries (self : Dispatcher) (entries : list Entry)
    : M (list (option pyret)) :=
  tasks ← lift (collect entries);
  gather (map (events_handler_notify self) tasks).

(** ** The event loop *)

(** [loop.call_exception_handler]: an exception that a callback raises
    is caught by the loop and reported. *)
Definition call_exception_handler (e : exn) (s : Shared) : Shared :=
  {| storage := storage s;
     get_state_calls := get_state_calls s;
     pending := pending s;
     invoked := invoked s;
     error_notifications := error_notifications s;
     error_handlers_invoked := error_handlers_invoked s;
     loop_factory := loop_factory s;
     callback_errors := callback_errors s ++ [e] |}.

(** One task of the loop runs to completion, in its own context; a handler
    call is followed by its done callback. *)
Definition run_task (self : Dispatcher) (s : Shared) (t : Task) : Shared :=
  match task_coro t with
  | HandlerCall outcome =>
      match process_response t outcome (task_local t) s with
      | (Ok _, _, s') => s'
      | (Raise e, _, s') => call_exception_handler e s'
      end
  | ErrorsNotify event e => (errors_handlers_notify self event e (task_local t) s).2
  end.

Definition take_pending (s : Shared) : Shared :=
  {| storage := storage s;
     get_state_calls := get_state_calls s;
     pending := [];
     invoked := invoked s;
     error_notifications := error_notifications s;
     error_handlers_invoked := error_handlers_invoked s;
     loop_factory := loop_factory s;
     callback_errors := callback_errors s |}.

(** The tasks that are pending now run; the tasks they create wait for the
    next round. *)
Definition run_round (self : Dispatcher) (s : Shared) : Shared :=
  foldl (run_task self) (take_pending s) (pending s).

(** The loop runs until no task is pending: handler calls first, then the
    error notifications that their done callbacks created. *)
Definition run_loop (self : Dispatcher) (s : Shared) : Shared :=
  run_round self (run_round self s).

(** ** Validators for the filters factory ([builtin.py], [validate]) *)

Section Validate.
Context {V : Type}.

(** [bool(config)] for a dict: it is not empty. *)
Definition dict_truthy (config : gmap string V) : bool :=
  negb (size config =? 0)%nat.

(** [Command.validate]: the config and what is left of [full_config]. *)
Definition Command_validate (full_config : gmap string V)
    : gmap string V * gmap string V :=
  let config : gmap string V := ∅ in
  let '(config, full_config) :=
    match full_config !! "commands" with
    | Some v => (<["commands" := v]> config, delete "commands" full_config)
    | None => (config, full_config)
    end in
  let '(config, full_config) :=
    match (if dict_truthy config then full_config !! "commands_prefix" else None) with
    | Some v => (<["prefixes" := v]> config, delete "commands_prefix" full_config)
    | None => (config, full_config)
    end in
  let '(config, full_config) :=
    match (if dict_truthy config then full_config !! "commands_ignore_mention"
           else None) with
    | Some v => (<["ignore_mention" := v]> config,
                 delete "commands_ignore_mention" full_config)
    | None => (config, full_config)
    end in
  (config, full_config).

(** [Text._default_params] *)
Definition _default_params : list (string * string) :=
  [("text", "equals"); ("text_contains", "contains");
   ("text_startswith", "startswith"); ("text_endswith", "endswith")].

(** The loop of [Text.validate] over the parameters that are left; [None]
    when the loop ends without [return]. *)
Fixpoint validate_params (params : list (string * string))
    (full_config : gmap string V) : option (gmap string V) * gmap string V :=
  match params with
  | [] => (None, full_config)
  | (param, key) :: params' =>
      match full_config !! param with
      | Some v => (Some {[ key := v ]}, delete param full_config)
      | None => validate_params params' full_config
      end
  end.

(** [Text.validate] *)
Definition Text_validate (full_config : gmap string V)
    : option (gmap string V) * gmap string V :=
  validate_params _default_params full_config.

(** [Regexp.validate] *)
Definition Regexp_validate (full_config : gmap string V)
    : option (gmap string V) * gmap string V :=
  match full_config !! "regexp" with
  | Some v => (Some {[ "regexp" := v ]}, delete "regexp" full_config)
  | None => (None, full_config)
  end.

(** [IDFilter.validate] *)
Definition IDFilter_validate (full_config : gmap string V)
    : gmap string V * gmap string V :=
  let result : gmap string V := ∅ in
  let '(result, full_config) :=
    match full_config !! "user_id" with
    | Some v => (<["user_id" := v]> result, delete "user_id" full_config)
    | None => (result, full_config)
    end in
  let '(result, full_config) :=
    match full_config !! "chat_id" with
    | Some v => (<["chat_id" := v]> result, delete "chat_id" full_config)
    | None => (result, full_config)
    end in
  (result, full_config).

End Validate.

(** [Text] called with a config of [Text.validate] as keywords: the keys are the
    keyword arguments, a key that is missing leaves the default [None], and
    a value may itself be [None]. *)
Definition Text_of_config (config : gmap string (option str_or_list))
    (ignore_case : bool) : result Text :=
  Text_init (config !! "equals" ≫= id) (config !! "contains" ≫= id)
            (config !! "startswith" ≫= id) (config !! "endswith" ≫= id)
            ignore_case.

(** The filters that [Text.__init__] builds when one mode is given, as a
    list. *)
Definition Text_equals (l : list string) (ic : bool) : Text :=
  {| equals := Some l; contains := None; startswith := None; endswith := None;
     text_ignore_case := ic |}.
Definition Text_contains (l : list string) (ic : bool) : Text :=
  {| equals := None; contains := Some l; startswith := None; endswith := None;
     text_ignore_case := ic |}.
Definition Text_startswith (l : list string) (ic : bool) : Text :=
  {| equals := None; contains := None; startswith := Some l; endswith := None;
     text_ignore_case := ic |}.
Definition Text_endswith (l : list string) (ic : bool) : Text :=
  {| equals := None; contains := None; startswith := None; endswith := Some l;
     text_ignore_case := ic |}.

(** ** CommandObj ([builtin.py], [Command.CommandObj]) *)

(** [CommandObj.mentioned] *)
Definition CommandObj_mentioned (self : CommandObj) : bool :=
  PyStr.truthy (cmd_mention self).

(** [CommandObj.text] *)
Definition CommandObj_text (self : CommandObj) : string :=
  let line := cmd_prefix self +:+ cmd_command self in
  let line := if CommandObj_mentioned self
              then line +:+ "@" +:+ cmd_mention self else line in
  let line := match cmd_args self with
              | Some args => if PyStr.truthy args then line +:+ " " +:+ args else line
              | None => line
              end in
  line.

(** [CommandHelp()], [CommandSettings()], [CommandPrivacy()] *)
Definition CommandHelp_init : Command :=
  Command_init (StrList ["help"]) (OneStr "/") true false.
Definition CommandSettings_init : Command :=
  Command_init (StrList ["settings"]) (OneStr "/") true false.
Definition CommandPrivacy_init : Command :=
  Command_init (StrList ["privacy"]) (OneStr "/") true false.

(** ** Dispatcher.current_state with arguments ([dispatcher.py]) *)

(** [Dispatcher.current_state(chat=chat, user=user)]: an argument that is
    [None] is taken from the current recipient or sender. *)
Definition current_state_of (chat user : option string) : M FSMContext :=
  fun l s =>
    let chat := match chat with
                | None => recipient_id <$> current_recipient l
                | Some _ => chat
                end in
    let user := match user with
                | None => sender_id <$> current_sender l
                | Some _ => user
                end in
    (Ok {| fsm_chat := chat; fsm_user := user |}, l, s).

(** ** Payloads ([utils/payload.py]) *)

(** Python values that go into a payload: [None], scalars, lists, dicts
    (in insertion order), pydantic models (their fields in declaration
    order) and objects with a [to_python] method (what it returns). *)
#[local] Set Warnings "-register-all".

Inductive pyobj :=
| ONone
| OBool (b : bool)
| OInt (z : Z)
| OFloat (repr : string)
| OStr (s : string)
| OList (l : list pyobj)
| ODict (d : list (string * pyobj))
| OModel (fields : list (string * pyobj))
| OPy (to_python : pyobj).

Inductive payload_exn :=
| FBException (msg : string)
| TypeError (msg : string)
| RecursionError.

Inductive presult (A : Type) :=
| POk (a : A)
| PRaise (e : payload_exn).
Arguments POk {A} a.
Arguments PRaise {A} e.

#[global] Instance presult_ret : MRet presult := fun _ a => POk a.
#[global] Instance presult_bind : MBind presult := fun _ _ f m =>
  match m with POk a => f a | PRaise e => PRaise e end.

Definition is_None (v : pyobj) : bool :=
  match v with ONone => true | _ => false end.

(** [value.dict()] of pydantic: models become dicts, also inside lists,
    dicts and other models. *)
Fixpoint model_dict (v : pyobj) : pyobj :=
  match v with
  | OList l => OList (map model_dict l)
  | ODict d => ODict (map (fun kv => (kv.1, model_dict kv.2)) d)
  | OModel fields => ODict (map (fun kv => (kv.1, model_dict kv.2)) fields)
  | _ => v
  end.

Definition DEFAULT_FILTER : list string := ["self"; "cls"].

(** The [exclude] argument: [None], a list, or a set. *)
Inductive exclude_arg :=
| ExcludeNone
| ExcludeList (l : list string)
| ExcludeSet (s : list string).

(** [exclude] after the first lines of [generate_payload]: the default
    filter is added to [None] and to a list; a set is taken as it is. *)
Definition exclude_set (exclude : exclude_arg) : list string :=
  match exclude with
  | ExcludeNone => DEFAULT_FILTER
  | ExcludeList l => (l ++ DEFAULT_FILTER)%list
  | ExcludeSet s => s
  end.

(** The test that makes the loop of [generate_payload] skip an item. *)
Definition skipped (exclude : list string) (key : string) (value : pyobj) : bool :=
  is_None value || PyStr.mem key exclude || PyStr.startswith key "_".

(** [generate_payload(exclude=exclude, **kwargs)].  [depth] is the number
    of frames that the interpreter still allows; the call for a model
    passes the fields of [value.dict()] as keywords, which fails when one of
    them is named [exclude], the name of the parameter. *)
Fixpoint generate_payload (depth : nat) (exclude : exclude_arg)
    (kwargs : list (string * pyobj)) : presult (list (string * pyobj)) :=
  match depth with
  | O => PRaise RecursionError
  | S depth' =>
      let exclude := exclude_set exclude in
      (fix loop (kwargs : list (string * pyobj)) :=
         match kwargs with
         | [] => POk []
         | (key, value) :: kwargs' =>
             if skipped exclude key value then loop kwargs'
             else
               match value with
               | OModel fields =>
                   match model_dict value with
                   | ODict d =>
                       if PyStr.mem "exclude" (map fst d)
                       then PRaise (TypeError
                         "generate_payload() got multiple values for keyword argument 'exclude'")
                       else
                         inner ← generate_payload depth' (ExcludeSet exclude) d;
                         _d ← loop kwargs';
                         POk ((key, ODict inner) :: _d)
                   | _ => PRaise (TypeError "dict() did not return a dict")
                   end
               | _ =>
                   _d ← loop kwargs';
                   POk ((key, value) :: _d)
               end
         end) kwargs
  end.

(** The default recursion limit of the interpreter. *)
Definition recursion_limit : nat := 1000.

(** [_normalize(obj)] *)
Fixpoint _normalize (obj : pyobj) : pyobj :=
  match obj with
  | OList l => OList (map _normalize l)
  | ODict d =>
      ODict ((fix items (d : list (string * pyobj)) :=
                match d with
                | [] => []
                | (k, v) :: d' =>
                    if is_None v then items d' else (k, _normalize v) :: items d'
                end) d)
  | OPy to_python => to_python
  | _ => obj
  end.

(** No dict in [v], looking through lists and dicts, has a [None] value. *)
Fixpoint none_free (v : pyobj) : bool :=
  match v with
  | OList l => forallb none_free l
  | ODict d => forallb (fun kv => negb (is_None kv.2) && none_free kv.2) d
  | _ => true
  end.

(** No object with a [to_python] method is in [v], looking through lists
    and dicts. *)
Fixpoint plain (v : pyobj) : bool :=
  match v with
  | OList l => forallb plain l
  | ODict d => forallb (fun kv => plain kv.2) d
  | OPy _ => false
  | _ => true
  end.

(** [d.get(key)] on a dict kept as an association list. *)
Fixpoint dict_get (key : string) (d : list (string * pyobj)) : option pyobj :=
  match d with
  | [] => None
  | (k, v) :: d' => if String.eqb key k then Some v else dict_get key d'
  end.

(** The payload of a model that is passed as a keyword: the items of
    [value.dict()], converted all the way down, without the skipped ones. *)
Definition model_payload (exclude : list string) (fields : list (string * pyobj))
    : presult pyobj :=
  let d := map (fun kv => (kv.1, model_dict kv.2)) fields in
  if PyStr.mem "exclude" (map fst d)
  then PRaise (TypeError
         "generate_payload() got multiple values for keyword argument 'exclude'")
  else POk (ODict (filter (fun kv => skipped exclude kv.1 kv.2 = false) d)).

(** The payload of the keywords, without recursion: what [generate_payload]
    computes when it is allowed two frames or more. *)
Fixpoint payload_items (exclude : list string) (kwargs : list (string * pyobj))
    : presult (list (string * pyobj)) :=
  match kwargs with
  | [] => POk []
  | (key, value) :: kwargs' =>
      if skipped exclude key value then payload_items exclude kwargs'
      else
        match value with
        | OModel fields =>
            inner ← model_payload exclude fields;
            _d ← payload_items exclude kwargs';
            POk ((key, inner) :: _d)
        | _ =>
            _d ← payload_items exclude kwargs';
            POk ((key, value) :: _d)
        end
  end.

(** The value is not a model. *)
Definition not_model (v : pyobj) : bool :=
  match v with OModel _ => false | _ => true end.

(** ** Requests and [Message.send_message] ([types/requests.py],
    [types/attachment.py], [types/message.py]) *)

Definition opt_str (o : option string) : pyobj :=
  match o with Some s => OStr s | None => ONone end.

Record RecipientRequest := {
  rr_id : option string;
  rr_user_ref : option string;
  rr_post_id : option string;
  rr_comment_id : option string }.

Definition RecipientRequest_model (r : RecipientRequest) : pyobj :=
  OModel [("id", opt_str (rr_id r)); ("user_ref", opt_str (rr_user_ref r));
          ("post_id", opt_str (rr_post_id r));
          ("comment_id", opt_str (rr_comment_id r))].

(** [QuickReply] of [requests.py] *)
Record QuickReplyRequest := {
  qr_content_type : string;
  qr_title : string;
  qr_image_url : option string;
  qr_payload : option string }.

Definition QuickReplyRequest_model (q : QuickReplyRequest) : pyobj :=
  OModel [("content_type", OStr (qr_content_type q)); ("title", OStr (qr_title q));
          ("image_url", opt_str (qr_image_url q));
          ("payload", opt_str (qr_payload q))].

(** [Attachment.payload : Union[MediaPayload, Coors, None]]; the floats of
    [Coors] are kept as their literals. *)
Inductive attachment_payload :=
| MediaPayload (url : string)
| Coors (lat long : string).

Definition attachment_payload_model (p : attachment_payload) : pyobj :=
  match p with
  | MediaPayload url => OModel [("url", OStr url)]
  | Coors lat long => OModel [("lat", OFloat lat); ("long", OFloat long)]
  end.

(** [Attachment] of [attachment.py], as a request carries it. *)
Record AttachmentRequest := {
  ar_type : string;
  ar_payload : option attachment_payload }.

Definition AttachmentRequest_model (a : AttachmentRequest) : pyobj :=
  OModel [("type", OStr (ar_type a));
          ("payload", match ar_payload a with
                      | Some p => attachment_payload_model p
                      | None => ONone
                      end)].

Record MessageRequest := {
  mr_text : string;
  mr_attachment : option AttachmentRequest;
  mr_quick_replies : option (list QuickReplyRequest);
  mr_metadata : option string }.

Definition MessageRequest_model (m : MessageRequest) : pyobj :=
  OModel [("text", OStr (mr_text m));
          ("attachment", match mr_attachment m with
                         | Some a => AttachmentRequest_model a
                         | None => ONone
                         end);
          ("quick_replies", match mr_quick_replies m with
                            | Some l => OList (map QuickReplyRequest_model l)
                            | None => ONone
                            end);
          ("metadata", opt_str (mr_metadata m))].

(** The received [Message] as a model (of an attachment the type alone is
    kept, as in [Attachment] above); it only ever occurs under the key
    [self]. *)
Definition Message_model (m : Message) : pyobj :=
  OModel [("mid", OStr (mid m)); ("text", OStr (text m));
          ("attachments", match attachments m with
                          | Some l => OList (map (fun a => OModel [("type", OStr (att_type a))]) l)
                          | None => ONone
                          end);
          ("quick_reply", match quick_reply m with
                          | Some q => OModel [("payload", OStr (payload q))]
                          | None => ONone
                          end);
          ("reply_to", match reply_to m with
                       | Some r => OModel [("mid", OStr (reply_mid r))]
                       | None => ONone
                       end)].

(** [locals()] in [send_message], before [payload] is bound: the
    parameters in their order. *)
Definition send_message_locals (self : Message) (recipient : RecipientRequest)
    (message : option MessageRequest)
    (sender_action notification_type tag : option string)
    (messaging_type : string) : list (string * pyobj) :=
  [("self", Message_model self);
   ("recipient", RecipientRequest_model recipient);
   ("message", match message with
               | Some m => MessageRequest_model m
               | None => ONone
               end);
   ("sender_action", opt_str sender_action);
   ("notification_type", opt_str notification_type);
   ("tag", opt_str tag);
   ("messaging_type", OStr messaging_type)].

(** [Message.send_message] up to the call of [api_request]: the payload
    that is sent to [/me/messages], or the exception raised before. *)
Definition send_message (self : Message) (recipient : RecipientRequest)
    (message : option MessageRequest)
    (sender_action notification_type tag : option string)
    (messaging_type : string) : presult (list (string * pyobj)) :=
  let locals := send_message_locals self recipient message sender_action
                  notification_type tag messaging_type in
  if given message && given sender_action then
    PRaise (FBException
      "sender_action cannot be sent with message. Must be sent as a separate request.")
  else if given sender_action
          && negb (bool_decide (map fst locals = ["sender_action"; "recipient"]))
  then
    PRaise (FBException
      "When using sender_action, recipient should be the only other property set in the request.")
  else generate_payload recursion_limit ExcludeNone locals.

(** ** Webhook requests ([webhook.py]) *)

Module Webhook.

(** The peer name of the transport: host and port for IPv4, two more
    numbers for IPv6. *)
Inductive peer :=
| Peer4 (host : string) (port : Z)
| Peer6 (host : string) (port flowinfo scope_id : Z).

(** What the handler reads of a request: the headers, the peer name of the
    transport, the query, and the [_check_ip] entry of the application
    ([False] when it is missing). *)
Record Request := {
  headers : gmap string string;
  peername : option peer;
  query : gmap string string;
  app_check_ip : bool }.

(** [web.Response(text=..., status=...)] *)
Record Response := {
  status : Z;
  body : option string }.

(** What a handler method comes to: a response, [HTTPUnauthorized], or
    another exception. *)
Inductive outcome :=
| Respond (r : Response)
| HTTPUnauthorized
| Raised (e : exn).

(** [_check_ip] *)
Definition _check_ip (ip : string) : bool := true.

(** [WebhookRequestHandler.check_ip]; [host, _ = peer_name] fails on a
    peer name that is not a pair. *)
Definition check_ip (request : Request) : result (option string * bool) :=
  match (match headers request !! "X-Forwarded-For" with
         | Some forwarded_for =>
             if PyStr.truthy forwarded_for then Some forwarded_for else None
         | None => None
         end) with
  | Some forwarded_for => Ok (Some forwarded_for, _check_ip forwarded_for)
  | None =>
      match peername request with
      | Some (Peer4 host _) => Ok (Some host, _check_ip host)
      | Some (Peer6 _ _ _ _) =>
          Raise (ValueError "too many values to unpack (expected 2)")
      | None => Ok (None, false)
      end
  end.

(** [WebhookRequestHandler.validate_ip]: [None] when it returns, else what
    it raises. *)
Definition validate_ip (request : Request) : option outcome :=
  if app_check_ip request then
    match check_ip request with
    | Ok (_, accept) => if accept then None else Some HTTPUnauthorized
    | Raise e => Some (Raised e)
    end
  else None.

(** [WebhookRequestHandler.get] for a dispatcher whose [fb] has the given
    confirmation code. *)
Definition get (confirmation_code : option string) (request : Request) : outcome :=
  match validate_ip request with
  | Some raised => raised
  | None =>
      let mode := query request !! "hub.mode" in
      let token := query request !! "hub.verify_token" in
      let challenge := query request !! "hub.challenge" in
      if bool_decide (mode = Some "subscribe")
         && bool_decide (token = confirmation_code)
      then Respond {| status := 200; body := challenge |}
      else Respond {| status := 403; body := None |}
  end.

(** [WebhookRequestHandler.head] *)
Definition head (request : Request) : outcome :=
  match validate_ip request with
  | Some raised => raised
  | None => Respond {| status := 200; body := Some "" |}
  end.

End Webhook.

(** ** The JSON library in use ([utils/json.py]) *)

Module Json.

Definition JSON : string := "json".
Definition RAPIDJSON : string := "rapidjson".
Definition UJSON : string := "ujson".
Definition ORJSON : string := "orjson".

Definition upper_char (c : ascii) : ascii :=
  let n := nat_of_ascii c in
  if ((97 <=? n)%nat && (n <=? 122)%nat) then ascii_of_nat (n - 32) else c.

(** [s.upper()] *)
Fixpoint upper (s : string) : string :=
  match s with
  | EmptyString => EmptyString
  | String c s' => String (upper_char c) (upper s')
  end.

(** The loop that detects the mode, over the libraries that are left:
    [environ] holds the names set in [os.environ], [importable] tells
    whether [importlib.import_module] finds the library. *)
Fixpoint detect (libs : list string) (environ : gset string)
    (importable : string → bool) : string :=
  match libs with
  | [] => JSON
  | json_lib :: libs' =>
      if bool_decide ("DISABLE_" +:+ upper json_lib ∈ environ)
      then detect libs' environ importable
      else if importable json_lib then json_lib
      else detect libs' environ importable
  end.

(** [mode] after the loop. *)
Definition mode (environ : gset string) (importable : string → bool) : string :=
  detect [RAPIDJSON; ORJSON; UJSON] environ importable.

(** The library can be used: it is not disabled through the environment
    and it can be imported. *)
Definition usable (environ : gset string) (importable : string → bool)
    (json_lib : string) : Prop :=
  ("DISABLE_" +:+ upper json_lib ∉ environ) ∧ importable json_lib = true.

End Json.

(** ** Request timeouts ([fb.py]) *)

Module FBTimeout.

(** An [int] or a [float], the latter kept as its literal. *)
Inductive number :=
| NInt (z : Z)
| NFloat (repr : string).

(** [aiohttp.ClientTimeout(total=...)]; the other fields keep their
    defaults. *)
Record ClientTimeout := { total : option number }.

(** A timeout as it is given: [None], a number or a [ClientTimeout]. *)
Inductive timeout_value :=
| TNone
| TNumber (n : number)
| TClient (t : ClientTimeout).

(** [FB._prepare_timeout] *)
Definition _prepare_timeout (value : timeout_value) : option ClientTimeout :=
  match value with
  | TNone => None
  | TClient t => Some t
  | TNumber n => Some {| total := Some n |}
  end.

(** The attribute [_timeout] of the instance ([None]: it was never
    assigned) and the context variable [_ctx_timeout] ([None]: not set in
    the current context). *)
Record FB := {
  _timeout : option (option ClientTimeout);
  _ctx_timeout : option (option ClientTimeout) }.

(** [FB.__init__] assigns no [_timeout]. *)
Definition FB_init : FB := {| _timeout := None; _ctx_timeout := None |}.

(** What the property [timeout] returns: [sentinel] or a timeout. *)
Inductive timeout_result :=
| Sentinel
| Timeout (t : ClientTimeout).

(** The getter of [timeout]: [self._timeout], the default handed to
    [ContextVar.get], is evaluated first. *)
Definition timeout (self : FB) : result timeout_result :=
  match _timeout self with
  | None => Raise (AttributeError "_timeout")
  | Some default =>
      let timeout := match _ctx_timeout self with
                     | Some value => value
                     | None => default
                     end in
      match timeout with
      | None => Ok Sentinel
      | Some t => Ok (Timeout t)
      end
  end.

(** The setter and the deleter of [timeout]. *)
Definition set_timeout (self : FB) (value : timeout_value) : FB :=
  {| _timeout := Some (_prepare_timeout value); _ctx_timeout := _ctx_timeout self |}.

Definition del_timeout (self : FB) : FB := set_timeout self TNone.

(** [with self.request_timeout(timeout): body]: the variable is set, the
    body runs, and the variable is reset from the token, also when the
    body raises. *)
Definition request_timeout {A} (timeout : timeout_value)
    (body : FB → result A * FB) (self : FB) : result A * FB :=
  let timeout := _prepare_timeout timeout in
  let token := _ctx_timeout self in
  let '(r, self') :=
    body {| _timeout := _timeout self; _ctx_timeout := Some timeout |} in
  (r, {| _timeout := _timeout self'; _ctx_timeout := token |}).

End FBTimeout.

(** ** Observations on a run *)

(** From [(l, s)] to [(l', s')] the storage was read at most once, and only
    to fill a state cache that was not set: either nothing was read and the
    cache is as it was, or the cache was not set, is set now, and exactly one
    [get_state] call was logged. *)
Definition one_read (l : Local) (s : Shared) (l' : Local) (s' : Shared) : Prop :=
  (get_state_calls s' = get_state_calls s ∧ ctx_state l' = ctx_state l)
  ∨ (ctx_state l = None ∧ is_Some (ctx_state l')
     ∧ ∃ key, get_state_calls s' = (get_state_calls s ++ [key])%list).

(** Every run of [m] reads the storage at most once, in the sense above. *)
Definition frugal {A} (m : M A) : Prop :=
  ∀ l s, one_read l s (m l s).1.2 (m l s).2.





(** The task is a notification of the error chain. *)
Definition is_notification (t : Task) : Prop :=
  match task_coro t with ErrorsNotify _ _ => True | HandlerCall _ => False end.




(** [l] and [l'] hold the same context variables; the [context]
    attribute of their tasks may differ. *)
Definition same_vars (l l' : Local) : Prop :=
  current_recipient l = current_recipient l'
  ∧ current_sender l = current_sender l'
  ∧ ctx_state l = ctx_state l'.

(** [s] and [s'] differ in their pending tasks at most. *)
Definition same_but_pending (s s' : Shared) : Prop :=
  storage s = storage s'
  ∧ get_state_calls s = get_state_calls s'
  ∧ invoked s = invoked s'
  ∧ error_notifications s = error_notifications s'
  ∧ error_handlers_invoked s = error_handlers_invoked s'
  ∧ loop_factory s = loop_factory s'
  ∧ callback_errors s = callback_errors s'.



(** * Concrete inputs *)

Module Sample.

Definition msg (t : string) : Message :=
  {| mid := "mid.1"; text := t; attachments := None;
     quick_reply := None; reply_to := None |}.

Definition event (sender_id recipient_id : string) : Event :=
  {| sender := {| sender_id := sender_id |};
     recipient := {| recipient_id := recipient_id |};
     timestamp := 0 |}.

Definition message_event (sender_id recipient_id t : string) : eventobj :=
  MsgEvent {| event_base := event sender_id recipient_id; message := msg t |}.

Definition bot : result string := Ok "echo_bot".

(** The task context as [WebhookRequestHandler.post] leaves it. *)
Definition webhook_context : gmap string ctxval :=
  <["CALLER" := CStr "webhook"]>
    (<["WEBHOOK_CONNECTION" := CBool true]> (<["WEBHOOK_REQUEST" := CRequest]> ∅)).

(** The task that runs [process_entries] for a webhook request, on a loop
    whose tasks carry a context. *)
Definition local0 : Local :=
  {| current_recipient := None; current_sender := None; ctx_state := None;
     context := Some webhook_context |}.

(** The same task on the loop of [asyncio] as it is: [ensure_future] makes
    it a new task, which has no [context] attribute. *)
Definition local_plain : Local := child_local PlainTasks local0.

(** Nothing has run yet, on a loop of the given kind. *)
Definition shared_on (factory : task_factory) (st : Storage) : Shared :=
  {| storage := st; get_state_calls := []; pending := []; invoked := [];
     error_notifications := []; error_handlers_invoked := [];
     loop_factory := factory; callback_errors := [] |}.

(** Nothing has run yet, on a loop whose tasks carry a context. *)
Definition shared0 (st : Storage) : Shared := shared_on ContextTasks st.

(** Nothing has run yet, on the loop of [asyncio] as it is. *)
Definition shared_plain (st : Storage) : Shared := shared_on PlainTasks st.

(** A storage in which the conversation of user ["1"] with page ["2"] is in
    state ["form:name"]. *)
Definition storage1 : Storage :=
  {[ (Some "2", Some "1") := {| state_name := Some "form:name"; state_data := ∅ |} ]}.

(** A handler that raises. *)
Definition failing : callback := fun _ _ _ => Raise (HandlerError "boom").

(** A handler that answers with the text of the message. *)
Definition echo : callback := fun _ message _ => Ok (RVal (text message)).

(** An entry whose first slot is absent and whose second slot is a
    message event. *)
Definition entry_first_absent : Entry :=
  {| entry_id := "e1"; entry_time := 0;
     messaging := [None; Some (message_event "1" "2" "hi")] |}.

Definition entry_message (t : string) : Entry :=
  {| entry_id := "e2"; entry_time := 0;
     messaging := [Some (message_event "1" "2" t)] |}.


(** A dispatcher with one handler, registered as [@dp.message_handler()]
    registers it: run as a task by default, behind the state filter for
    [state=None]. *)
Definition dp_failing : Dispatcher :=
  register_message_handler (Dispatcher_init bot) failing
    [FState (StateFilter_init (StateOne (ItemRaw None)))] None.

Definition dp_echo : Dispatcher :=
  register_message_handler (Dispatcher_init bot) echo
    [FState (StateFilter_init (StateOne (ItemRaw None)))] (Some false).

(** Registration keywords, as the filters factory hands them to
    [validate]. *)
Definition full_config_prefix_only : gmap string string :=
  {[ "commands_prefix" := "!/"; "state" := "*" ]}.

Definition full_config_commands : gmap string string :=
  {[ "commands" := "start"; "commands_prefix" := "!/"; "state" := "*" ]}.

Definition full_config_texts : gmap string (option str_or_list) :=
  {[ "text_contains" := Some (StrList ["a"; "b"]);
     "text_endswith" := Some (OneStr "z") ]}.

(** A recipient given by id, and a message with an attachment that has no
    payload. *)
Definition recipient1 : RecipientRequest :=
  {| rr_id := Some "1"; rr_user_ref := None; rr_post_id := None;
     rr_comment_id := None |}.

Definition message_with_attachment : MessageRequest :=
  {| mr_text := "hi";
     mr_attachment := Some {| ar_type := "image"; ar_payload := None |};
     mr_quick_replies := None; mr_metadata := None |}.

(** A model nested in a model, the inner one with a [None] field. *)
Definition nested_model : pyobj :=
  OModel [("text", OStr "hi"); ("metadata", ONone);
          ("attachment", OModel [("type", OStr "image"); ("payload", ONone)])].

(** A subscription request of the platform, behind a reverse proxy. *)
Definition subscribe_request (token : option string) : Webhook.Request :=
  {| Webhook.headers := {[ "X-Forwarded-For" := "203.0.113.7" ]};
     Webhook.peername := None;
     Webhook.query :=
       match token with
       | Some t => {[ "hub.mode" := "subscribe"; "hub.verify_token" := t;
                      "hub.challenge" := "1158201444" ]}
       | None => {[ "hub.mode" := "subscribe"; "hub.challenge" := "1158201444" ]}
       end;
     Webhook.app_check_ip := true |}.

End Sample.

(** * Properties *)

(** ** Strings *)

Module PyStrFacts.
Import PyStr.

Lemma app_cons c s t : String c s +:+ t = String c (s +:+ t).
Proof. reflexivity. Qed.

Lemma app_nil_l s : EmptyString +:+ s = s.
Proof. reflexivity. Qed.

Lemma app_nil_r s : s +:+ EmptyString = s.
Proof. induction s as [|c s IH]; [done|]. by rewrite app_cons, IH. Qed.

Lemma app_assoc s t u : (s +:+ t) +:+ u = s +:+ (t +:+ u).
Proof. induction s as [|c s IH]; [done|]. by rewrite !app_cons, IH. Qed.

Lemma truthy_app_cons tok c : truthy (tok +:+ String c EmptyString) = true.
Proof. by destruct tok. Qed.

(** A run of non-whitespace characters is read into the current token. *)
Lemma split_acc_run t : ∀ tok rest,
  all not_space t = true →
  split_acc tok (t +:+ rest) = split_acc (tok +:+ t) rest.
Proof.
  induction t as [|c t IH]; intros tok rest Ht.
  - by rewrite app_nil_l, app_nil_r.
  - cbn in Ht. apply andb_prop in Ht as [Hc Ht].
    rewrite app_cons. cbn [split_acc].
    unfold not_space in Hc. apply negb_true_iff in Hc. rewrite Hc.
    rewrite IH by done. by rewrite app_assoc.
Qed.

(** The first token of a text that starts with a token followed by
    whitespace. *)
Lemma split_first_token t w rest :
  truthy t = true → all not_space t = true → isspace w = true →
  split (t +:+ String w rest) = t :: split rest.
Proof.
  intros Ht Hns Hw. unfold split.
  rewrite split_acc_run by done. rewrite app_nil_l.
  cbn [split_acc]. by rewrite Hw, Ht.
Qed.

Lemma partition_absent sep s :
  all (fun c => negb (Ascii.eqb c sep)) s = true →
  partition sep s = (s, EmptyString, EmptyString).
Proof.
  induction s as [|c s IH]; [done|]. cbn. intros [Hc Hs]%andb_prop.
  apply negb_true_iff in Hc. rewrite Hc. by rewrite IH.
Qed.

Lemma mem_spec x l : mem x l = true ↔ x ∈ l.
Proof. unfold mem. apply bool_decide_eq_true. Qed.

Lemma startswith_spec t s : startswith t s = true ↔ ∃ b, t = s +:+ b.
Proof.
  revert t. induction s as [|a s IH]; intros t.
  - split; [intros _; by exists t | done].
  - destruct t as [|b t]; cbn.
    + split; [done | by intros [? ?]].
    + rewrite andb_true_iff, IH. split.
      * intros [Hab [r ->]]. apply Ascii.eqb_eq in Hab as ->. by exists r.
      * intros [r Hr]. rewrite app_cons in Hr. injection Hr as -> ->.
        split; [apply Ascii.eqb_refl | by exists r].
Qed.

Lemma contains_spec t s : contains t s = true ↔ ∃ a b, t = a +:+ s +:+ b.
Proof.
  induction t as [|c t IH].
  - cbn. rewrite orb_false_r, startswith_spec. split.
    + intros [b Hb]. by exists EmptyString, b.
    + intros [a [b Hab]]. destruct a; [by exists b|done].
  - cbn [contains]. rewrite orb_true_iff, startswith_spec, IH. split.
    + intros [[b Hb] | [a [b Hab]]].
      * by exists EmptyString, b.
      * exists (String c a), b. by rewrite app_cons, Hab.
    + intros [a [b Hab]]. destruct a as [|c' a].
      * left. by exists b.
      * right. rewrite app_cons in Hab. injection Hab as _ ->. by exists a, b.
Qed.

Lemma endswith_spec t s : endswith t s = true ↔ ∃ a, t = a +:+ s.
Proof.
  induction t as [|c t IH].
  - cbn [endswith]. rewrite orb_false_r, String.eqb_eq. split.
    + intros <-. by exists EmptyString.
    + intros [a Ha]. by destruct a.
  - cbn [endswith]. rewrite orb_true_iff, String.eqb_eq, IH. split.
    + intros [<- | [a ->]]; [by exists EmptyString | by exists (String c a)].
    + intros [a Ha]. destruct a as [|c' a].
      * by left.
      * right. rewrite app_cons in Ha. injection Ha as _ ->. by exists a.
Qed.

End PyStrFacts.

(** ** Command *)

Section CommandFacts.
Import PyStr PyStrFacts.

Variable me : result string.

(** What [check_command] does on a text that starts with a one-character
    prefix and a command token without mention, followed by whitespace. *)
Lemma check_command_token (message : Message) (C : list string) (P : str_or_list)
    (ic im : bool) (p : ascii) (cmd ws rest : string) :
  text message = String p cmd +:+ ws +:+ rest →
  not_space p = true → all not_space cmd = true → all not_at cmd = true →
  truthy ws = true → all isspace ws = true →
  check_command me message C P ic im =
  Ok (if in_str_or_list (String p "") P && mem (if ic then lower cmd else cmd) C
      then FDict [("command",
                   KCommand {| cmd_prefix := String p ""; cmd_command := cmd;
                               cmd_mention := ""; cmd_args := None |})]
      else FFalse).
Proof.
  intros Htext Hp Hcmd Hat Hws Hall. unfold check_command. rewrite Htext.
  destruct ws as [|w ws]; [done|]. cbn in Hall. apply andb_prop in Hall as [Hw _].
  change (String w ws +:+ rest) with (String w (ws +:+ rest)).
  rewrite split_first_token; [| done | by cbn; rewrite Hp, Hcmd | done].
  rewrite app_cons. cbn [truthy negb]. rewrite (partition_absent "@" cmd) by exact Hat.
  cbn [truthy andb]. rewrite andb_false_r. cbn [mbind result_bind].
  destruct (in_str_or_list _ P); cbn [negb andb]; [|done].
  by destruct (mem _ C).
Qed.

End CommandFacts.

(** C2 (as amended).  A [Command] filter built with [ignore_case=True] from
    prefixes [P] and commands [C], on a message whose text is a prefix
    character [p], a command token [cmd] without mention, whitespace and
    trailing text: it accepts iff [p] is in [P] and [cmd.lower()] is in the
    lower-cased command list; on acceptance it yields one keyword argument
    [command] whose [prefix] is [p], whose [command] is [cmd] as typed and
    whose [mention] is empty. *)
Theorem command_check_ignore_case (me : result string) (P C : str_or_list)
    (ignore_mention : bool) (p : ascii) (cmd ws args : string)
    (event : eventobj) (message : Message) :
  text message = String p cmd +:+ ws +:+ args →
  PyStr.not_space p = true →
  PyStr.all PyStr.not_space cmd = true →
  PyStr.all PyStr.not_at cmd = true →
  PyStr.truthy ws = true →
  PyStr.all PyStr.isspace ws = true →
  ∃ r, Command_check me (Command_init C P true ignore_mention) event message = Ok r
     ∧ (fres_truthy r = true ↔
          in_str_or_list (String p "") P = true
          ∧ PyStr.lower cmd ∈ map PyStr.lower (str_list C))
     ∧ (fres_truthy r = true →
          ∃ obj, r = FDict [("command", KCommand obj)]
               ∧ cmd_prefix obj = String p ""
               ∧ cmd_command obj = cmd
               ∧ cmd_mention obj = "").
Proof.
  intros Htext Hp Hcmd Hat Hws Hall.
  unfold Command_check, Command_init. cbn [commands prefixes ignore_case].
  erewrite check_command_token by eassumption.
  eexists. split; [reflexivity|].
  rewrite <- PyStrFacts.mem_spec.
  destruct (in_str_or_list _ P), (PyStr.mem _ _); cbn; split.
  all: try (intros _; by eexists).
  all: try done.
  all: split; try done; by intros [? ?].
Qed.

Lemma command_check_ignore_case_witness :
  ∃ r, Command_check Sample.bot (Command_init (StrList ["start"]) (OneStr "/") true false)
         (Sample.message_event "1" "2" "/START hello") (Sample.msg "/START hello") = Ok r
     ∧ (fres_truthy r = true ↔
          in_str_or_list "/" (OneStr "/") = true
          ∧ PyStr.lower "START" ∈ map PyStr.lower ["start"])
     ∧ (fres_truthy r = true →
          ∃ obj, r = FDict [("command", KCommand obj)]
               ∧ cmd_prefix obj = "/"
               ∧ cmd_command obj = "START"
               ∧ cmd_mention obj = "").
Proof.
  apply (command_check_ignore_case Sample.bot (OneStr "/") (StrList ["start"]) false
           "/" "START" " " "hello"); reflexivity.
Defined.

(** C2 as stated fails on its own example: for [commands=['start']], prefix
    ['/'] and text ["/START hello"] the filter does not yield a command
    object with [command == 'start'] and [args == 'hello']. *)
Lemma command_check_counterexample :
  ¬ ∃ obj,
      Command_check Sample.bot (Command_init (StrList ["start"]) (OneStr "/") true false)
        (Sample.message_event "1" "2" "/START hello") (Sample.msg "/START hello")
      = Ok (FDict [("command", KCommand obj)])
      ∧ cmd_command obj = "start" ∧ cmd_args obj = Some "hello".
Proof.
  intros [obj [Hcheck [Hcommand _]]]. vm_compute in Hcheck.
  injection Hcheck as <-. discriminate Hcommand.
Qed.

(** What the filter yields on that input. *)
Example command_check_START_hello :
  Command_check Sample.bot (Command_init (StrList ["start"]) (OneStr "/") true false)
    (Sample.message_event "1" "2" "/START hello") (Sample.msg "/START hello")
  = Ok (FDict [("command",
                KCommand {| cmd_prefix := "/"; cmd_command := "START";
                            cmd_mention := ""; cmd_args := None |})]).
Proof. reflexivity. Qed.

(** The command list is lower-cased at construction, so a command given in
    upper case is matched by its lower-case spelling although that spelling
    is not in the list as given. *)
Example command_check_lowered_set :
  fres_truthy <$>
    Command_check Sample.bot (Command_init (StrList ["Start"]) (OneStr "/") true false)
      (Sample.message_event "1" "2" "/start hello") (Sample.msg "/start hello")
  = Ok true
  ∧ PyStr.lower "start" ∉ ["Start"].
Proof. split; [reflexivity|]. by intros H%list_elem_of_singleton. Qed.

(** ** CommandStart *)

(** Without a deep link, [CommandStart] is the [Command] filter for
    [start]. *)
Lemma CommandStart_check_plain me event message :
  CommandStart_check me (CommandStart_init None) event message =
  Command_check me (Command_init (StrList ["start"]) (OneStr "/") true false)
                event message.
Proof.
  unfold CommandStart_check. cbn [deep_link start_command CommandStart_init].
  by destruct (Command_check _ _ _ _).
Qed.

(** A message that the [start] command does not match is rejected as the
    [Command] filter rejects it, deep link or not. *)
Lemma CommandStart_check_no_command me dl event message r :
  Command_check me (Command_init (StrList ["start"]) (OneStr "/") true false)
                event message = Ok r →
  fres_truthy r = false →
  CommandStart_check me (CommandStart_init dl) event message = Ok r.
Proof.
  intros Hcheck Hr. unfold CommandStart_check.
  cbn [deep_link start_command CommandStart_init]. rewrite Hcheck.
  cbn [mbind result_bind]. destruct dl; [by rewrite Hr | done].
Qed.

(** C6.  With a deep link, a plain string or a compiled pattern, and a
    message that matches the [/start] command, [CommandStart.check] reaches
    [message.get_args()], which [Message] does not have: the check raises
    [AttributeError] and neither accepts nor rejects. *)
Theorem CommandStart_check_deep_link_raises (me : result string)
    (dl : deep_link_t) (event : eventobj) (message : Message) (r : fres) :
  Command_check me (Command_init (StrList ["start"]) (OneStr "/") true false)
                event message = Ok r →
  fres_truthy r = true →
  CommandStart_check me (CommandStart_init (Some dl)) event message
  = Raise (AttributeError "get_args").
Proof.
  intros Hcheck Hr. unfold CommandStart_check.
  cbn [deep_link start_command CommandStart_init]. rewrite Hcheck.
  cbn [mbind result_bind]. rewrite Hr. by destruct dl.
Qed.

Lemma CommandStart_check_deep_link_raises_witness :
  CommandStart_check Sample.bot (CommandStart_init (Some (DeepStr "ref-42")))
    (Sample.message_event "1" "2" "/start ref-42") (Sample.msg "/start ref-42")
  = Raise (AttributeError "get_args").
Proof.
  apply (CommandStart_check_deep_link_raises Sample.bot (DeepStr "ref-42")
           (Sample.message_event "1" "2" "/start ref-42") (Sample.msg "/start ref-42")
           (FDict [("command",
                    KCommand {| cmd_prefix := "/"; cmd_command := "start";
                                cmd_mention := ""; cmd_args := None |})]));
    reflexivity.
Defined.

(** The same with a compiled pattern that matches every text. *)
Example CommandStart_check_pattern_raises :
  CommandStart_check Sample.bot
    (CommandStart_init (Some (DeepPattern {| pattern_match := fun s => Some s |})))
    (Sample.message_event "1" "2" "/start ref-42") (Sample.msg "/start ref-42")
  = Raise (AttributeError "get_args").
Proof. reflexivity. Qed.

(** ** Text *)

(** The number of modes given to the constructor. *)
Lemma Text_init_one_mode equals contains startswith endswith ic :
  sum_list (map (fun s : option str_or_list => if given s then 1 else 0)
                [equals; contains; startswith; endswith]) = 1 →
  Text_init equals contains startswith endswith ic =
  Ok {| equals := normalize equals; contains := normalize contains;
        startswith := normalize startswith; endswith := normalize endswith;
        text_ignore_case := ic |}.
Proof. intros H. unfold Text_init. by rewrite H. Qed.

(** C8.  Construction fails at once, with [ValueError], for [Text] with no
    mode or with two or more of [equals], [contains], [startswith],
    [endswith], and for [IDFilter] with neither [user_id] nor [chat_id]. *)
Theorem filter_init_raises :
  (∀ equals contains startswith endswith ic,
     sum_list (map (fun s : option str_or_list => if given s then 1 else 0)
                   [equals; contains; startswith; endswith]) ≠ 1 →
     ∃ msg, Text_init equals contains startswith endswith ic = Raise (ValueError msg))
  ∧ (∀ ic, Text_init None None None None ic
           = Raise (ValueError "No one mode is specified!"))
  ∧ IDFilter_init None None
    = Raise (ValueError "Both user_id and chat_id can't be None").
Proof.
  split; [|split; reflexivity].
  intros equals contains startswith endswith ic H. unfold Text_init.
  destruct (1 <? _)%nat eqn:Hgt; [by eexists|].
  destruct (_ =? 0)%nat eqn:Hz; [by eexists|].
  apply Nat.ltb_ge in Hgt. apply Nat.eqb_neq in Hz. lia.
Qed.

Lemma filter_init_raises_witness :
  ∃ msg, Text_init (Some (OneStr "hi")) None (Some (StrList ["he"; "ho"])) None false
         = Raise (ValueError msg).
Proof.
  apply (proj1 filter_init_raises (Some (OneStr "hi")) None
           (Some (StrList ["he"; "ho"])) None false).
  cbn. lia.
Defined.

Example Text_init_two_modes :
  Text_init (Some (OneStr "hi")) None (Some (StrList ["he"; "ho"])) None false
  = Raise (ValueError "Arguments 'equals' and 'startswith' cannot be used together.").
Proof. reflexivity. Qed.

Section TextFacts.
Import PyStrFacts.

Variable pre : string → string.
Variable t : string.

Lemma contains_all l :
  forallb (PyStr.contains t) (map pre l) = true ↔
  Forall (fun s => ∃ a b, t = a +:+ pre s +:+ b) l.
Proof.
  induction l as [|s l IH]; cbn.
  - split; [constructor | done].
  - rewrite andb_true_iff, IH, contains_spec, Forall_cons. done.
Qed.

Lemma startswith_any l :
  existsb (PyStr.startswith t) (map pre l) = true ↔
  Exists (fun s => ∃ b, t = pre s +:+ b) l.
Proof.
  induction l as [|s l IH]; cbn.
  - split; [done | by intros ?%Exists_nil].
  - rewrite orb_true_iff, IH, startswith_spec, Exists_cons. done.
Qed.

Lemma endswith_any l :
  existsb (PyStr.endswith t) (map pre l) = true ↔
  Exists (fun s => ∃ a, t = a +:+ pre s) l.
Proof.
  induction l as [|s l IH]; cbn.
  - split; [done | by intros ?%Exists_nil].
  - rewrite orb_true_iff, IH, endswith_spec, Exists_cons. done.
Qed.

End TextFacts.

Lemma fres_truthy_of_bool b : fres_truthy (fres_of_bool b) = b.
Proof. by destruct b. Qed.

Lemma Text_check_contains_eq l ic e obj :
  Text_check {| equals := None; contains := Some l; startswith := None;
                endswith := None; text_ignore_case := ic |} (MsgEvent e) obj
  = fres_of_bool (forallb (PyStr.contains (fold_case ic (text obj)))
                          (map (fold_case ic) l)).
Proof. by destruct ic. Qed.

Lemma Text_check_startswith_eq l ic e obj :
  Text_check {| equals := None; contains := None; startswith := Some l;
                endswith := None; text_ignore_case := ic |} (MsgEvent e) obj
  = fres_of_bool (existsb (PyStr.startswith (fold_case ic (text obj)))
                          (map (fold_case ic) l)).
Proof. by destruct ic. Qed.

Lemma Text_check_endswith_eq l ic e obj :
  Text_check {| equals := None; contains := None; startswith := None;
                endswith := Some l; text_ignore_case := ic |} (MsgEvent e) obj
  = fres_of_bool (existsb (PyStr.endswith (fold_case ic (text obj)))
                          (map (fold_case ic) l)).
Proof. by destruct ic. Qed.

(** C9.  On a message event with text [t], where [pre] is the case folding
    that the filter is configured with (the identity unless [ignore_case]):
    a [Text] filter in [contains] mode accepts iff every configured string
    occurs in [t]; in [startswith] mode iff [t] starts with some configured
    string; in [endswith] mode iff [t] ends with some configured string.
    [Text(contains=['a','b'])] accepts ["xaybz"] and rejects ["xayz"]. *)
Theorem Text_check_modes (e : MessageEvent) (obj : Message)
    (patterns : str_or_list) (ic : bool) :
  let pre := fold_case ic in
  let t := pre (text obj) in
  (∃ f, Text_init None (Some patterns) None None ic = Ok f
      ∧ (fres_truthy (Text_check f (MsgEvent e) obj) = true ↔
         Forall (fun s => ∃ a b, t = a +:+ pre s +:+ b) (str_list patterns)))
  ∧ (∃ f, Text_init None None (Some patterns) None ic = Ok f
      ∧ (fres_truthy (Text_check f (MsgEvent e) obj) = true ↔
         Exists (fun s => ∃ b, t = pre s +:+ b) (str_list patterns)))
  ∧ (∃ f, Text_init None None None (Some patterns) ic = Ok f
      ∧ (fres_truthy (Text_check f (MsgEvent e) obj) = true ↔
         Exists (fun s => ∃ a, t = a +:+ pre s) (str_list patterns)))
  ∧ (∃ f, Text_init None (Some (StrList ["a"; "b"])) None None false = Ok f
      ∧ Text_check f (Sample.message_event "1" "2" "xaybz") (Sample.msg "xaybz") = FTrue
      ∧ Text_check f (Sample.message_event "1" "2" "xayz") (Sample.msg "xayz") = FFalse).
Proof.
  intros pre t. repeat split.
  - exists {| equals := None; contains := Some (str_list patterns); startswith := None;
              endswith := None; text_ignore_case := ic |}.
    split; [by destruct patterns|].
    rewrite Text_check_contains_eq, fres_truthy_of_bool. apply contains_all.
  - exists {| equals := None; contains := None; startswith := Some (str_list patterns);
              endswith := None; text_ignore_case := ic |}.
    split; [by destruct patterns|].
    rewrite Text_check_startswith_eq, fres_truthy_of_bool. apply startswith_any.
  - exists {| equals := None; contains := None; startswith := None;
              endswith := Some (str_list patterns); text_ignore_case := ic |}.
    split; [by destruct patterns|].
    rewrite Text_check_endswith_eq, fres_truthy_of_bool. apply endswith_any.
  - eexists. split; [reflexivity|]. split; reflexivity.
Qed.

Lemma Text_check_modes_witness :
  ∃ f, Text_init None (Some (StrList ["A"; "b"])) None None true = Ok f
     ∧ (fres_truthy (Text_check f (Sample.message_event "1" "2" "xBya")
                                  (Sample.msg "xBya")) = true ↔
        Forall (fun s => ∃ a b, "xbya" = a +:+ PyStr.lower s +:+ b) ["A"; "b"]).
Proof.
  exact (proj1 (Text_check_modes
                  {| event_base := Sample.event "1" "2"; message := Sample.msg "xBya" |}
                  (Sample.msg "xBya") (StrList ["A"; "b"]) true)).
Defined.

(** A text filter rejects an event that is not a message event. *)
Lemma Text_check_plain_event f e obj : Text_check f (PlainEvent e) obj = FFalse.
Proof. reflexivity. Qed.

(** ** IDFilter *)

(** A [str] is never found in a list of [int]. *)
Lemma py_in_str_ints s l : py_in (PStr s) (map PInt l) = false.
Proof. induction l as [|z l IH]; [done|]. cbn. exact IH. Qed.

(** C7.  The ids an [IDFilter] keeps are [int] (the constructor maps [int]
    over its arguments) and the ids of an event are [str], so neither
    membership test ever succeeds: the filter rejects every event, also
    one whose sender id is in the configured allow-list. *)
Theorem IDFilter_check_never_accepts (self : IDFilter) (event : eventobj)
    (obj : Message) :
  IDFilter_check self event obj = FFalse.
Proof.
  unfold IDFilter_check, ids.
  destruct (user_id self) as [[|u us]|], (chat_id self) as [[|c cs]|];
    cbn [ids_truthy andb]; rewrite ?py_in_str_ints; reflexivity.
Qed.

(** [IDFilter(user_id=['123'])] on an event sent by ['123']. *)
Example IDFilter_check_listed_sender :
  ∃ f, IDFilter_init (Some (IdMany [PStr "123"])) None = Ok f
     ∧ user_id f = Some [123%Z]
     ∧ IDFilter_check f (Sample.message_event "123" "2" "hi") (Sample.msg "hi") = FFalse.
Proof. eexists. split; [reflexivity|]. split; reflexivity. Qed.

(** [IDFilter(user_id=123, chat_id=2)] on an event from ['123'] to ['2']. *)
Example IDFilter_check_listed_both :
  ∃ f, IDFilter_init (Some (IdOne (PInt 123))) (Some (IdOne (PInt 2))) = Ok f
     ∧ IDFilter_check f (Sample.message_event "123" "2" "hi") (Sample.msg "hi") = FFalse.
Proof. eexists. split; reflexivity. Qed.

(** [int] skips blanks around the literal, but not the separators FS..US
    that [str.split] treats as whitespace. *)
Example int_skips_blanks_only :
  PyInt.of_string " 12 " = Ok 12%Z
  ∧ PyStr.split (String (ascii_of_nat 28) "12") = ["12"]
  ∧ ∃ msg, PyInt.of_string (String (ascii_of_nat 28) "12") = Raise (ValueError msg).
Proof. split; [reflexivity|]. split; [reflexivity|]. eexists. reflexivity. Qed.

(** A [str] argument is iterated character by character. *)
Example IDFilter_init_str :
  IDFilter_init (Some (IdOne (PStr "123"))) None
  = Ok {| user_id := Some [1%Z; 2%Z; 3%Z]; chat_id := None |}.
Proof. reflexivity. Qed.

(** ** StateFilter *)

Lemma StateFilter_check_wildcard self event obj l s :
  state_in (Some "*") (states self) = true →
  StateFilter_check self event obj l s =
  (Ok (FDict [("state",
               KState {| fsm_chat := recipient_id <$> current_recipient l;
                         fsm_user := sender_id <$> current_sender l |})]), l, s).
Proof. intros H. unfold StateFilter_check. by rewrite H. Qed.

Lemma StateFilter_check_cached self event obj l s cached :
  state_in (Some "*") (states self) = false →
  ctx_state l = Some cached →
  StateFilter_check self event obj l s =
  (Ok (if state_in cached (states self)
       then FDict [("state",
                    KState {| fsm_chat := recipient_id <$> current_recipient l;
                              fsm_user := sender_id <$> current_sender l |});
                   ("raw_state", KRawState cached)]
       else FFalse), l, s).
Proof.
  intros H Hc. unfold StateFilter_check. rewrite H.
  unfold mbind, M_bind, get_local. rewrite Hc. by destruct (state_in cached _).
Qed.

Lemma StateFilter_check_read self event obj l s :
  state_in (Some "*") (states self) = false →
  ctx_state l = None →
  PyStr.truthy (recipient_id (recipient (event_of event)))
  || PyStr.truthy (sender_id (sender (event_of event))) = true →
  let chat := Some (recipient_id (recipient (event_of event))) in
  let user := Some (sender_id (sender (event_of event))) in
  let state := get_state (storage s) chat user in
  StateFilter_check self event obj l s =
  (Ok (if state_in state (states self)
       then FDict [("state",
                    KState {| fsm_chat := recipient_id <$> current_recipient l;
                              fsm_user := sender_id <$> current_sender l |});
                   ("raw_state", KRawState state)]
       else FFalse),
   {| current_recipient := current_recipient l;
      current_sender := current_sender l;
      ctx_state := Some state;
      context := context l |},
   {| storage := storage s;
      get_state_calls := get_state_calls s ++ [(chat, user)];
      pending := pending s;
      invoked := invoked s;
      error_notifications := error_notifications s;
      error_handlers_invoked := error_handlers_invoked s;
        loop_factory := loop_factory s;
        callback_errors := callback_errors s |}).
Proof.
  intros H Hc Hid chat user state. unfold StateFilter_check. rewrite H.
  unfold mbind, M_bind, get_local. rewrite Hc.
  cbn [get_target opt_truthy]. rewrite Hid.
  unfold storage_get_state, put_local. cbn [context current_recipient current_sender].
  fold chat user state. by destruct (state_in state _).
Qed.

Lemma StateFilter_check_no_target self event obj l s :
  state_in (Some "*") (states self) = false →
  ctx_state l = None →
  PyStr.truthy (recipient_id (recipient (event_of event)))
  || PyStr.truthy (sender_id (sender (event_of event))) = false →
  StateFilter_check self event obj l s = (Ok FFalse, l, s).
Proof.
  intros H Hc Hid. unfold StateFilter_check. rewrite H.
  unfold mbind, M_bind, get_local. rewrite Hc.
  cbn [get_target opt_truthy]. by rewrite Hid.
Qed.

(** C4 (as amended).  A [StateFilter] built with [state='*'] accepts
    whatever is stored, reads nothing and yields [state] alone.  A
    [StateFilter] built with [state=None], when no state is cached yet for
    the dispatch and the recipient id or the sender id of the event is not
    empty, accepts exactly when the storage has no state for the
    (recipient, sender) key, and then yields [state] and [raw_state]; when
    a state is cached for the dispatch it accepts exactly when the cached
    state is [None]. *)
Theorem StateFilter_check_any_and_none (event : eventobj) (obj : Message)
    (l : Local) (s : Shared) :
  let any := StateFilter_init (StateOne (ItemRaw (Some "*"))) in
  let none := StateFilter_init (StateOne (ItemRaw None)) in
  let chat := recipient_id (recipient (event_of event)) in
  let user := sender_id (sender (event_of event)) in
  let fsm := {| fsm_chat := recipient_id <$> current_recipient l;
                fsm_user := sender_id <$> current_sender l |} in
  StateFilter_check any event obj l s = (Ok (FDict [("state", KState fsm)]), l, s)
  ∧ (ctx_state l = None →
     PyStr.truthy chat || PyStr.truthy user = true →
     (StateFilter_check none event obj l s).1.1 =
     Ok (if decide (get_state (storage s) (Some chat) (Some user) = None)
         then FDict [("state", KState fsm); ("raw_state", KRawState None)]
         else FFalse))
  ∧ (∀ cached, ctx_state l = Some cached →
     StateFilter_check none event obj l s =
     (Ok (if decide (cached = None)
          then FDict [("state", KState fsm); ("raw_state", KRawState None)]
          else FFalse), l, s)).
Proof.
  intros any none chat user fsm. split; [|split].
  - by apply StateFilter_check_wildcard.
  - intros Hc Hid. unfold none.
    rewrite StateFilter_check_read by done. cbn [fst snd]. fold chat user.
    by destruct (get_state (storage s) (Some chat) (Some user)).
  - intros cached Hc. unfold none.
    rewrite (StateFilter_check_cached _ _ _ _ _ cached) by done.
    by destruct cached.
Qed.

Lemma StateFilter_check_any_and_none_witness :
  (StateFilter_check (StateFilter_init (StateOne (ItemRaw None)))
     (Sample.message_event "1" "2" "hi") (Sample.msg "hi")
     Sample.local0 (Sample.shared0 Sample.storage1)).1.1 = Ok FFalse
  ∧ (StateFilter_check (StateFilter_init (StateOne (ItemRaw None)))
       (Sample.message_event "3" "2" "hi") (Sample.msg "hi")
       Sample.local0 (Sample.shared0 Sample.storage1)).1.1
    = Ok (FDict [("state", KState {| fsm_chat := None; fsm_user := None |});
                 ("raw_state", KRawState None)]).
Proof.
  split.
  - exact (proj1 (proj2 (StateFilter_check_any_and_none
                           (Sample.message_event "1" "2" "hi") (Sample.msg "hi")
                           Sample.local0 (Sample.shared0 Sample.storage1)))
                 eq_refl eq_refl).
  - exact (proj1 (proj2 (StateFilter_check_any_and_none
                           (Sample.message_event "3" "2" "hi") (Sample.msg "hi")
                           Sample.local0 (Sample.shared0 Sample.storage1)))
                 eq_refl eq_refl).
Defined.

(** C4 as stated fails: on a match, the wildcard filter yields no
    [raw_state]; and the [state=None] filter rejects an event whose
    recipient and sender ids are both empty although nothing is stored. *)
Lemma StateFilter_check_counterexample :
  (¬ ∃ kw,
       (StateFilter_check (StateFilter_init (StateOne (ItemRaw (Some "*"))))
          (Sample.message_event "1" "2" "hi") (Sample.msg "hi")
          Sample.local0 (Sample.shared0 Sample.storage1)).1.1 = Ok (FDict kw)
       ∧ "raw_state" ∈ kw.*1)
  ∧ (get_state DisabledStorage (Some "") (Some "") = None
     ∧ (StateFilter_check (StateFilter_init (StateOne (ItemRaw None)))
          (Sample.message_event "" "" "hi") (Sample.msg "hi")
          Sample.local0 (Sample.shared0 DisabledStorage)).1.1 = Ok FFalse).
Proof.
  split; [|split; reflexivity].
  intros [kw [Hcheck Hin]].
  rewrite StateFilter_check_wildcard in Hcheck by reflexivity.
  cbn [fst] in Hcheck. injection Hcheck as <-.
  cbn in Hin. apply list_elem_of_singleton in Hin. discriminate Hin.
Qed.

(** ** Storage reads during a dispatch *)

Section Reads.

Lemma one_read_refl l s : one_read l s l s.
Proof. by left. Qed.

Lemma one_read_trans l s l1 s1 l2 s2 :
  one_read l s l1 s1 → one_read l1 s1 l2 s2 → one_read l s l2 s2.
Proof.
  intros [[Hr Hc] | (Hc & Hs & key & Hr)] [[Hr' Hc'] | (Hc' & Hs' & key' & Hr')].
  - left. split; congruence.
  - right. split; [congruence|]. split; [done|]. exists key'. congruence.
  - right. split; [done|]. split; [congruence|]. exists key. congruence.
  - rewrite Hc' in Hs. by destruct Hs.
Qed.

Lemma one_read_length l s l' s' :
  one_read l s l' s' →
  (length (get_state_calls s') ≤ length (get_state_calls s) + 1)%nat.
Proof.
  intros [[-> _] | (_ & _ & key & ->)]; [lia|]. rewrite length_app. cbn. lia.
Qed.

Lemma frugal_ret {A} (a : A) : frugal (mret a).
Proof. intros l s. apply one_read_refl. Qed.

Lemma frugal_lift {A} (r : result A) : frugal (lift r).
Proof. intros l s. apply one_read_refl. Qed.

Lemma frugal_bind {A B} (m : M A) (f : A → M B) :
  frugal m → (∀ a, frugal (f a)) → frugal (m ≫= f).
Proof.
  intros Hm Hf l s. specialize (Hm l s).
  unfold mbind, M_bind. destruct (m l s) as [[[a|e] l1] s1]; cbn [fst snd] in *.
  - eapply one_read_trans; [exact Hm | apply Hf].
  - exact Hm.
Qed.

Lemma frugal_create_task c : frugal (create_task c).
Proof. intros l s. by left. Qed.

Lemma frugal_log_invoked i event : frugal (log_invoked i event).
Proof. intros l s. by left. Qed.

Lemma frugal_current_state : frugal current_state.
Proof. intros l s. by left. Qed.

Lemma frugal_StateFilter_check self event obj :
  frugal (StateFilter_check self event obj).
Proof.
  intros l s.
  destruct (state_in (Some "*") (states self)) eqn:Hany.
  { rewrite StateFilter_check_wildcard by done. apply one_read_refl. }
  destruct (ctx_state l) as [cached|] eqn:Hc.
  { rewrite (StateFilter_check_cached _ _ _ _ _ cached) by done. apply one_read_refl. }
  destruct (PyStr.truthy (recipient_id (recipient (event_of event)))
            || PyStr.truthy (sender_id (sender (event_of event)))) eqn:Hid.
  - rewrite StateFilter_check_read by done. right. cbn [fst snd ctx_state get_state_calls].
    split; [done|]. split; [by eexists|]. by eexists.
  - rewrite StateFilter_check_no_target by done. apply one_read_refl.
Qed.

Lemma frugal_execute_filter me f event message :
  frugal (execute_filter me f event message).
Proof.
  destruct f; cbn [execute_filter];
    first [apply frugal_lift | apply frugal_ret | apply frugal_StateFilter_check].
Qed.

Lemma frugal_check_filters me filters event message :
  frugal (check_filters me filters event message).
Proof.
  induction filters as [|f filters IH]; cbn [check_filters].
  - apply frugal_ret.
  - apply frugal_bind; [apply frugal_execute_filter|]. intros r.
    destruct (fres_truthy r); [|apply frugal_ret].
    apply frugal_bind; [exact IH|]. intros rest. apply frugal_ret.
Qed.

Lemma frugal_call r event message kw : frugal (call r event message kw).
Proof.
  destruct r; cbn [call]; [apply frugal_lift|].
  apply frugal_bind; [apply frugal_create_task|]. intros _. apply frugal_ret.
Qed.

Lemma frugal_notify_from me handlers event message :
  ∀ i, frugal (notify_from me handlers i event message).
Proof.
  induction handlers as [|h handlers IH]; intros i; cbn [notify_from].
  - apply frugal_ret.
  - apply frugal_bind; [apply frugal_check_filters|]. intros [kw|]; [|apply IH].
    apply frugal_bind; [apply frugal_log_invoked|]. intros _.
    apply frugal_bind; [apply frugal_call|]. intros r. apply frugal_ret.
Qed.

Lemma frugal_process_event self event : frugal (process_event self event).
Proof.
  destruct event as [e|e]; cbn [process_event]; [apply frugal_ret|].
  intros l s. unfold mbind, M_bind, get_local, put_local.
  cbn [current_recipient current_sender ctx_state context].
  pose proof (frugal_notify_from (me self) (message_handlers self)
                (MsgEvent e) (message e) 0
                {| current_recipient := Some (recipient (event_of (MsgEvent e)));
                   current_sender := Some (sender (event_of (MsgEvent e)));
                   ctx_state := ctx_state l; context := context l |} s) as H.
  exact H.
Qed.

End Reads.

(** C5.  The evaluation of a filter set on one event reads the storage at
    most once, however many [StateFilter] instances the set holds; so does
    the whole dispatch of one event through the message chain. *)
Theorem get_state_at_most_once :
  (∀ me filters event message l s,
     (length (get_state_calls (check_filters me filters event message l s).2)
      ≤ length (get_state_calls s) + 1)%nat)
  ∧ (∀ self event l s,
       (length (get_state_calls (process_event self event l s).2)
        ≤ length (get_state_calls s) + 1)%nat).
Proof.
  split; intros.
  - eapply one_read_length, frugal_check_filters.
  - eapply one_read_length, frugal_process_event.
Qed.

(** Two [StateFilter] instances, neither of them the wildcard, in one filter
    set: the first reads the storage, the second uses the cache. *)
Example get_state_once_two_filters :
  let filters := [FState (StateFilter_init (StateMany [ItemRaw None; ItemRaw (Some "form:name")]));
                  FState (StateFilter_init (StateOne (ItemRaw (Some "form:name"))))] in
  let run := check_filters Sample.bot filters (Sample.message_event "1" "2" "hi")
               (Sample.msg "hi") Sample.local0 (Sample.shared0 Sample.storage1) in
  get_state_calls run.2 = [(Some "2", Some "1")]
  ∧ ctx_state run.1.2 = Some (Some "form:name")
  ∧ run.1.1
    = Ok (Some [("state", KState {| fsm_chat := None; fsm_user := None |});
                ("raw_state", KRawState (Some "form:name"))]).
Proof. repeat split. Qed.

(** ** process_entries *)

Lemma collect_empty_messaging entries :
  Exists (fun entry => messaging entry = []) entries →
  collect entries = Raise IndexError.
Proof.
  induction 1 as [entry entries Hnil | entry entries _ IH]; cbn [collect].
  - by rewrite Hnil.
  - destruct (messaging entry !! 0%nat) as [[[e|e]|]|]; rewrite ?IH; done.
Qed.




(** C10.  A batch with an entry whose messaging list is empty fails with
    [IndexError] when the first slot is indexed; no task has been run by
    then, so nothing is dispatched. *)
Theorem process_entries_empty_messaging (self : Dispatcher)
    (entries : list Entry) (l : Local) (s : Shared) :
  Exists (fun entry => messaging entry = []) entries →
  process_entries self entries l s = (Raise IndexError, l, s).
Proof.
  intros H. unfold process_entries, mbind, M_bind, lift.
  by rewrite collect_empty_messaging.
Qed.

Lemma process_entries_empty_messaging_witness :
  process_entries (Dispatcher_init Sample.bot)
    [ {| entry_id := "e1"; entry_time := 0;
         messaging := [Some (Sample.message_event "1" "2" "hi")] |};
      {| entry_id := "e2"; entry_time := 0; messaging := [] |} ]
    Sample.local0 (Sample.shared0 DisabledStorage)
  = (Raise IndexError, Sample.local0, Sample.shared0 DisabledStorage).
Proof.
  apply (process_entries_empty_messaging (Dispatcher_init Sample.bot)).
  apply Exists_cons_tl, Exists_cons_hd. reflexivity.
Defined.

Section Invoked.

Variable P : eventobj → Prop.








End Invoked.





(** An entry with two messaging slots, the first one absent, is dropped: no
    handler is invoked and no task is created. *)
Example process_entries_first_absent :
  process_entries Sample.dp_echo [Sample.entry_first_absent]
    Sample.local0 (Sample.shared0 DisabledStorage)
  = (Ok [], Sample.local0, Sample.shared0 DisabledStorage).
Proof. reflexivity. Qed.

(** The entry next to it is dispatched, and its handler answers. *)
Example process_entries_dispatches_first :
  let run := process_entries Sample.dp_echo
               [Sample.entry_first_absent; Sample.entry_message "hello"]
               Sample.local0 (Sample.shared0 DisabledStorage) in
  run.1.1 = Ok [Some (RVal "hello")]
  ∧ invoked run.2 = [(0%nat, Sample.message_event "1" "2" "hello")].
Proof. split; reflexivity. Qed.

(** ** Detached handlers *)

Lemma notify_all_from_preserves handlers event e l :
  ∀ i s,
    error_notifications (notify_all_from handlers i event e l s).2
    = error_notifications s
    ∧ pending (notify_all_from handlers i event e l s).2 = pending s.
Proof.
  induction handlers as [|h handlers IH]; intros i s; cbn [notify_all_from].
  - done.
  - destruct (error_filter h event e); [|apply IH].
    unfold mbind, M_bind, log_error_handler, lift.
    destruct (error_handler h event e) as [r|e']; [|done].
    match goal with
    | |- context [notify_all_from handlers ?j event e l ?s'] =>
        destruct (IH j s') as [H1 H2];
        destruct (notify_all_from handlers j event e l s') as [[[rs|e'] l1] s1]
    end; done.
Qed.

Lemma run_task_notifications self s t :
  Forall is_notification (pending s) →
  Forall is_notification (pending (run_task self s t)).
Proof.
  intros H. unfold run_task.
  destruct (task_coro t) as [[r|e]|event e]; cbn [process_response].
  - exact H.
  - destruct (task_context t) as [ctx|]; cbn; [|exact H].
    apply Forall_app. split; [exact H|]. by apply Forall_singleton.
  - unfold errors_handlers_notify, mbind, M_bind, log_error_notification.
    match goal with
    | |- context [notify_all_from ?hs ?j event e ?l' ?s'] =>
        destruct (notify_all_from_preserves hs event e l' j s') as [_ ->]
    end. exact H.
Qed.

Lemma run_task_notification self s t :
  is_notification t → pending (run_task self s t) = pending s.
Proof.
  unfold is_notification, run_task.
  destruct (task_coro t) as [r|event e]; [done|]. intros _.
  unfold errors_handlers_notify, mbind, M_bind, log_error_notification.
  match goal with
  | |- context [notify_all_from ?hs ?j event e ?l' ?s'] =>
      destruct (notify_all_from_preserves hs event e l' j s') as [_ ->]
  end. done.
Qed.

Lemma run_tasks_notifications self tasks :
  ∀ s, Forall is_notification (pending s) →
       Forall is_notification (pending (foldl (run_task self) s tasks)).
Proof.
  induction tasks as [|t tasks IH]; intros s H; [exact H|].
  cbn [foldl]. by apply IH, run_task_notifications.
Qed.

Lemma run_notifications_pending self tasks :
  Forall is_notification tasks →
  ∀ s, pending (foldl (run_task self) s tasks) = pending s.
Proof.
  induction 1 as [|t tasks Ht _ IH]; intros s; [done|].
  cbn [foldl]. by rewrite IH, run_task_notification.
Qed.

(** The loop comes to rest: after the two rounds no task is pending,
    whatever was pending before. *)
Lemma run_loop_quiescent self s : pending (run_loop self s) = [].
Proof.
  unfold run_loop. unfold run_round at 1.
  rewrite run_notifications_pending; [done|].
  unfold run_round. by apply run_tasks_notifications.
Qed.

Lemma notify_all_from_callback_errors handlers event e l :
  ∀ i s,
    callback_errors (notify_all_from handlers i event e l s).2 = callback_errors s.
Proof.
  induction handlers as [|h handlers IH]; intros i s; cbn [notify_all_from].
  - done.
  - destruct (error_filter h event e); [|apply IH].
    unfold mbind, M_bind, log_error_handler, lift.
    destruct (error_handler h event e) as [r|e']; [|done].
    match goal with
    | |- context [notify_all_from handlers ?j event e l ?s'] =>
        pose proof (IH j s') as H1;
        destruct (notify_all_from handlers j event e l s') as [[[rs|e'] l1] s1]
    end; done.
Qed.

(** The wrapper built by [async_task] returns [None] at once, whatever the
    handler does.  When the handler raises [e], the done callback runs: on
    a loop whose tasks carry a context, the loop delivers one notification
    to the error chain, with the exception [e] and with what the task
    context holds under [EVENT_OBJECT]; on a loop with plain tasks the
    callback raises [AttributeError] and no notification is delivered. *)
Lemma async_task_error_notification (self : Dispatcher) (func : callback)
    (event : eventobj) (message : Message) (kw : kwargs) (l : Local)
    (s : Shared) (e : exn) :
  pending s = [] →
  func event message kw = Raise e →
  let after := run_loop self (call (async_task func) event message kw l s).2 in
  match loop_factory s with
  | ContextTasks =>
      error_notifications after
      = (error_notifications s ++ [(default ∅ (context l) !! EVENT_OBJECT, e)])%list
      ∧ callback_errors after = callback_errors s
  | PlainTasks =>
      error_notifications after = error_notifications s
      ∧ callback_errors after
        = (callback_errors s ++ [AttributeError "context"])%list
  end.
Proof.
  intros Hp He.
  destruct s as [st calls pend inv notes ehi factory errs]. cbn in Hp. subst pend.
  unfold run_loop, run_round. cbn [call async_task loop_factory].
  unfold mbind, M_bind, create_task, mret, M_ret, take_pending.
  cbn [snd pending app foldl run_task task_coro storage get_state_calls
       invoked error_notifications error_handlers_invoked loop_factory
       callback_errors].
  rewrite He.
  destruct factory;
    cbn [process_response snd fst pending app foldl run_task task_coro
         task_local task_context context child_local storage get_state_calls
         invoked error_notifications error_handlers_invoked loop_factory
         callback_errors lift call_exception_handler].
  - done.
  - unfold create_task.
    cbn [snd fst pending app foldl run_task task_coro
         task_local task_context context child_local storage get_state_calls
         invoked error_notifications error_handlers_invoked loop_factory
         callback_errors].
    unfold errors_handlers_notify, mbind, M_bind, log_error_notification.
    cbn [storage get_state_calls invoked pending error_notifications
         error_handlers_invoked loop_factory callback_errors].
    match goal with
    | |- context [notify_all_from ?hs ?j ?ev e ?l' ?s'] =>
        destruct (notify_all_from_preserves hs ev e l' j s') as [H1 H2];
        pose proof (notify_all_from_callback_errors hs ev e l' j s') as H3
    end.
    by rewrite H1, H3.
Qed.

(** C1.  A handler registered with the default [run_task] that raises, on a
    batch of one message event that arrives through the webhook:
    [process_entries] completes and returns, and the error chain receives
    exactly one notification, with the exception raised.  The event handed
    to the error chain is [None], not the event that was dispatched: the
    task context holds nothing under [EVENT_OBJECT].  That is on a loop
    whose tasks carry a context; on the loop of [asyncio] as it is, the
    done callback fails on [task.context] and the error chain receives
    nothing at all. *)
Theorem detached_handler_notification_lacks_event :
  let event := Sample.message_event "1" "2" "hi" in
  let run := process_entries Sample.dp_failing [Sample.entry_message "hi"]
               Sample.local0 (Sample.shared0 DisabledStorage) in
  run.1.1 = Ok [Some RNone]
  ∧ error_notifications (run_loop Sample.dp_failing run.2)
    = [(None, HandlerError "boom")]
  ∧ error_notifications (run_loop Sample.dp_failing run.2)
    ≠ [(Some (CEvent event), HandlerError "boom")]
  ∧ Sample.webhook_context !! EVENT_OBJECT = None
  ∧ (let plain := process_entries Sample.dp_failing [Sample.entry_message "hi"]
                    Sample.local_plain (Sample.shared_plain DisabledStorage) in
     plain.1.1 = Ok [Some RNone]
     ∧ error_notifications (run_loop Sample.dp_failing plain.2) = []
     ∧ callback_errors (run_loop Sample.dp_failing plain.2)
       = [AttributeError "context"]).
Proof.
  intros event run.
  assert (error_notifications (run_loop Sample.dp_failing run.2)
          = [(None, HandlerError "boom")]) as H by (vm_compute; reflexivity).
  split; [vm_compute; reflexivity|]. split; [exact H|].
  split; [rewrite H; discriminate|].
  split; [vm_compute; reflexivity|].
  repeat split; vm_compute; reflexivity.
Qed.

(** ** Validators for the filters factory *)

Section ValidateFacts.
Context {V : Type}.
Implicit Types full_config config : gmap string V.

Lemma dict_truthy_empty : dict_truthy (∅ : gmap string V) = false.
Proof. unfold dict_truthy. by rewrite map_size_empty. Qed.

Lemma dict_truthy_insert k v config : dict_truthy (<[k := v]> config) = true.
Proof.
  unfold dict_truthy. apply negb_true_iff, Nat.eqb_neq.
  apply map_size_non_empty_iff, insert_non_empty.
Qed.

(** Lookups through [insert], [delete] and [∅] at keys that are told
    apart by the hypotheses. *)
Ltac solve_lookup :=
  rewrite ?lookup_delete, ?lookup_insert, ?lookup_empty;
  repeat case_decide; solve [congruence | done].

(** X1.  Without the key [commands], [Command.validate] claims nothing:
    the config is empty and [full_config] is as it was, also when
    [commands_prefix] or [commands_ignore_mention] is given. *)
Theorem Command_validate_without_commands full_config :
  full_config !! "commands" = None →
  Command_validate full_config = (∅, full_config).
Proof.
  intros H. unfold Command_validate. rewrite H.
  by rewrite dict_truthy_empty.
Qed.

(** X2.  With the key [commands], [Command.validate] moves [commands],
    [commands_prefix] and [commands_ignore_mention] out of [full_config]
    into the config, the last two under the names [prefixes] and
    [ignore_mention]; the config has no other key and every other key of
    [full_config] stays. *)
Theorem Command_validate_claims full_config v :
  full_config !! "commands" = Some v →
  (Command_validate full_config).1 !! "commands" = Some v
  ∧ (Command_validate full_config).1 !! "prefixes"
    = full_config !! "commands_prefix"
  ∧ (Command_validate full_config).1 !! "ignore_mention"
    = full_config !! "commands_ignore_mention"
  ∧ (∀ k, k ∉ ["commands"; "prefixes"; "ignore_mention"] →
          (Command_validate full_config).1 !! k = None)
  ∧ (∀ k, (Command_validate full_config).2 !! k
          = if bool_decide (k ∈ ["commands"; "commands_prefix";
                                 "commands_ignore_mention"])
            then None else full_config !! k).
Proof.
  intros H. unfold Command_validate. rewrite H.
  rewrite dict_truthy_insert.
  rewrite (lookup_delete_ne full_config "commands" "commands_prefix") by done.
  destruct (full_config !! "commands_prefix") as [p|] eqn:Hp;
    rewrite ?dict_truthy_insert;
    rewrite ?lookup_delete_ne by done;
    destruct (full_config !! "commands_ignore_mention") as [m|] eqn:Hm;
    cbn [fst snd].
  all: repeat split; try solve_lookup.
  all: try (intros k Hk; repeat (apply not_elem_of_cons in Hk as [? Hk]);
            solve_lookup).
  all: intros k; case_bool_decide as Hk;
    [ repeat (apply elem_of_cons in Hk as [-> | Hk]); try solve_lookup;
      by apply elem_of_nil in Hk
    | repeat (apply not_elem_of_cons in Hk as [? Hk]); solve_lookup ].
Qed.

Lemma validate_params_spec params : ∀ full_config,
  match validate_params params full_config with
  | (Some config, rest) =>
      ∃ before param key after v,
        params = (before ++ (param, key) :: after)%list
        ∧ Forall (fun pk => full_config !! pk.1 = None) before
        ∧ full_config !! param = Some v
        ∧ config = {[ key := v ]}
        ∧ rest = delete param full_config
  | (None, rest) =>
      rest = full_config
      ∧ Forall (fun pk => full_config !! pk.1 = None) params
  end.
Proof.
  induction params as [|[param key] params IH]; intros full_config;
    cbn [validate_params].
  - done.
  - destruct (full_config !! param) as [v|] eqn:Hv.
    + by exists [], param, key, params, v.
    + specialize (IH full_config).
      destruct (validate_params params full_config) as [[config|] rest].
      * destruct IH as (before & p & k & after & v & -> & Hb & Hp & -> & ->).
        exists ((param, key) :: before), p, k, after, v.
        repeat split; try done. by constructor.
      * destruct IH as [-> Hall]. split; [done|]. by constructor.
Qed.

(** X3.  [Text.validate] claims one key at most: the first of [text],
    [text_contains], [text_startswith], [text_endswith] that is in
    [full_config].  It returns that value alone, under the name of its mode,
    and removes that key only; the later ones, given or not, stay in
    [full_config].  With none of the four it returns [None] and changes
    nothing. *)
Theorem Text_validate_first_param full_config :
  match Text_validate full_config with
  | (Some config, rest) =>
      ∃ before param key after v,
        _default_params = (before ++ (param, key) :: after)%list
        ∧ Forall (fun pk => full_config !! pk.1 = None) before
        ∧ full_config !! param = Some v
        ∧ config = {[ key := v ]}
        ∧ rest = delete param full_config
  | (None, rest) =>
      rest = full_config
      ∧ Forall (fun pk => full_config !! pk.1 = None) _default_params
  end.
Proof. apply validate_params_spec. Qed.

(** [IDFilter.validate] moves [user_id] and [chat_id] out of
    [full_config] into the result under the same names; the result has no
    other key, and every other key of [full_config] stays. *)
Theorem IDFilter_validate_claims full_config :
  (IDFilter_validate full_config).1 !! "user_id" = full_config !! "user_id"
  ∧ (IDFilter_validate full_config).1 !! "chat_id" = full_config !! "chat_id"
  ∧ (∀ k, k ∉ ["user_id"; "chat_id"] →
          (IDFilter_validate full_config).1 !! k = None)
  ∧ (∀ k, (IDFilter_validate full_config).2 !! k
          = if bool_decide (k ∈ ["user_id"; "chat_id"])
            then None else full_config !! k).
Proof.
  unfold IDFilter_validate.
  destruct (full_config !! "user_id") as [u|] eqn:Hu;
    rewrite ?lookup_delete_ne by done;
    destruct (full_config !! "chat_id") as [c|] eqn:Hc;
    cbn [fst snd].
  all: repeat split; try solve_lookup.
  all: try (intros k Hk; repeat (apply not_elem_of_cons in Hk as [? Hk]);
            solve_lookup).
  all: intros k; case_bool_decide as Hk;
    [ repeat (apply elem_of_cons in Hk as [-> | Hk]); try solve_lookup;
      by apply elem_of_nil in Hk
    | repeat (apply not_elem_of_cons in Hk as [? Hk]); solve_lookup ].
Qed.

End ValidateFacts.

Lemma Command_validate_without_commands_witness :
  Command_validate Sample.full_config_prefix_only
  = (∅, Sample.full_config_prefix_only).
Proof.
  apply (Command_validate_without_commands Sample.full_config_prefix_only).
  reflexivity.
Defined.

Lemma Command_validate_claims_witness :
  (Command_validate Sample.full_config_commands).1 !! "commands" = Some "start"
  ∧ (Command_validate Sample.full_config_commands).1 !! "prefixes"
    = Sample.full_config_commands !! "commands_prefix"
  ∧ (Command_validate Sample.full_config_commands).1 !! "ignore_mention"
    = Sample.full_config_commands !! "commands_ignore_mention"
  ∧ (∀ k, k ∉ ["commands"; "prefixes"; "ignore_mention"] →
          (Command_validate Sample.full_config_commands).1 !! k = None)
  ∧ (∀ k, (Command_validate Sample.full_config_commands).2 !! k
          = if bool_decide (k ∈ ["commands"; "commands_prefix";
                                 "commands_ignore_mention"])
            then None else Sample.full_config_commands !! k).
Proof.
  apply (Command_validate_claims Sample.full_config_commands "start").
  reflexivity.
Defined.

(** X4.  A [Text] filter built from what [Text.validate] returns is a
    filter for the one mode that was claimed, whatever other text options
    were given with it: the constructor never sees two modes.  It fails,
    with "No one mode is specified!", exactly when the value of the claimed
    option is [None]. *)
Theorem Text_of_validated_config
    (full_config config rest : gmap string (option str_or_list)) (ic : bool) :
  Text_validate full_config = (Some config, rest) →
  ∃ param key v,
    (param, key) ∈ _default_params
    ∧ full_config !! param = Some v
    ∧ match v with
      | Some patterns =>
          ∃ f, Text_of_config config ic = Ok f
             ∧ text_ignore_case f = ic
             ∧ [equals f; contains f; startswith f; endswith f]
               = map (fun pk : string * string =>
                        if bool_decide (pk.2 = key)
                        then Some (str_list patterns) else None)
                     _default_params
      | None =>
          Text_of_config config ic = Raise (ValueError "No one mode is specified!")
      end.
Proof.
  intros H. pose proof (validate_params_spec _default_params full_config) as Hspec.
  fold (Text_validate full_config) in Hspec. rewrite H in Hspec.
  destruct Hspec as (before & param & key & after & v & Hparams & _ & Hv & -> & _).
  exists param, key, v.
  assert ((param, key) ∈ @_default_params) as Hin.
  { rewrite Hparams. apply elem_of_app. right. apply elem_of_cons. by left. }
  split; [exact Hin|]. split; [exact Hv|].
  unfold _default_params in Hin.
  repeat (apply elem_of_cons in Hin as [Hin | Hin];
          [injection Hin as -> ->; destruct v as [[s|l]|];
           [eexists; split; [reflexivity|]; split; reflexivity ..
           | reflexivity] |]).
  by apply elem_of_nil in Hin.
Qed.

Lemma Text_of_validated_config_witness :
  ∃ param key v,
    (param, key) ∈ @_default_params
    ∧ Sample.full_config_texts !! param = Some v
    ∧ match v with
      | Some patterns =>
          ∃ f, Text_of_config (<["contains" := Some (StrList ["a"; "b"])]> ∅) false
               = Ok f
             ∧ text_ignore_case f = false
             ∧ [equals f; contains f; startswith f; endswith f]
               = map (fun pk : string * string =>
                        if bool_decide (pk.2 = key)
                        then Some (str_list patterns) else None)
                     _default_params
      | None =>
          Text_of_config (<["contains" := Some (StrList ["a"; "b"])]> ∅) false
          = Raise (ValueError "No one mode is specified!")
      end.
Proof.
  apply (Text_of_validated_config Sample.full_config_texts
           (<["contains" := Some (StrList ["a"; "b"])]> ∅)
           (delete "text_contains" Sample.full_config_texts) false).
  reflexivity.
Defined.

(** ** Command: edge cases and the command object *)

Section CommandEdges.
Import PyStr PyStrFacts.

Lemma split_acc_blank s :
  all isspace s = true → split_acc EmptyString s = [].
Proof.
  induction s as [|c s IH]; [done|]. cbn. intros [Hc Hs]%andb_prop.
  rewrite Hc. by apply IH.
Qed.

(** [partition] cuts the string at the separator and loses nothing. *)
Lemma partition_join sep s :
  s = (partition sep s).1.1 +:+ (partition sep s).1.2 +:+ (partition sep s).2
  ∧ ((partition sep s).1.2 = EmptyString ∧ (partition sep s).2 = EmptyString
     ∨ (partition sep s).1.2 = String sep EmptyString).
Proof.
  induction s as [|c s [IH1 IH2]]; cbn [partition].
  - split; [done|]. by left.
  - destruct (Ascii.eqb_spec c sep) as [->|Hne]; cbn [fst snd].
    + split; [done|]. by right.
    + destruct (partition sep s) as [[a m] b]; cbn [fst snd] in *.
      split; [by rewrite app_cons, <- IH1 | done].
Qed.

Variable me : result string.

(** X5.  A text of whitespace only makes [check_command] raise
    [IndexError] (the text is truthy and [split()] gives no token); the
    empty text is rejected with [False]. *)
Theorem check_command_blank (message : Message) (C : list string)
    (P : str_or_list) (ic im : bool) :
  all isspace (text message) = true →
  check_command me message C P ic im
  = if truthy (text message) then Raise IndexError else Ok FFalse.
Proof.
  intros H. unfold check_command, split.
  rewrite split_acc_blank by done. by destruct (truthy (text message)).
Qed.

(** X6.  Whatever [check_command] accepts, it yields one keyword argument
    [command], and the [text] of that command object is the first token of
    the message text again, but for an ["@"] at the very end of the token,
    which is lost. *)
Theorem check_command_text_round_trip (message : Message) (C : list string)
    (P : str_or_list) (ic im : bool) (r : fres) :
  check_command me message C P ic im = Ok r →
  fres_truthy r = true →
  ∃ obj token rest,
    r = FDict [("command", KCommand obj)]
    ∧ split (text message) = token :: rest
    ∧ (token = CommandObj_text obj ∨ token = CommandObj_text obj +:+ "@").
Proof.
  unfold check_command. destruct (truthy (text message)); [|by intros [= <-]].
  cbn [negb]. destruct (split (text message)) as [|[|p token] rest]; [done..|].
  pose proof (partition_join "@" token) as [Hjoin Hsep].
  destruct (partition "@" token) as [[command sep] mention]; cbn [fst snd] in *.
  match goal with
  | |- (?m ≫= _) = _ → _ => destruct m as [[|]|e]; cbn [mbind result_bind]
  end; [by intros [= <-] | | done].
  destruct (in_str_or_list _ P); cbn [negb]; [|by intros [= <-]].
  destruct (mem _ C); cbn [negb]; [|by intros [= <-]].
  intros [= <-] _. eexists _, _, _. split; [reflexivity|]. split; [reflexivity|].
  unfold CommandObj_text, CommandObj_mentioned.
  cbn [cmd_prefix cmd_command cmd_mention cmd_args].
  destruct Hsep as [[-> ->] | ->].
  - left. cbn [truthy]. rewrite Hjoin at 1. by rewrite !app_nil_r.
  - destruct mention as [|c mention]; cbn [truthy].
    + right. rewrite Hjoin at 1. rewrite app_nil_r.
      by rewrite !app_cons, app_nil_l, ?app_assoc.
    + left. rewrite Hjoin at 1.
      by rewrite !app_cons, app_nil_l, ?app_assoc.
Qed.

(** X7.  The prefix that is looked up is the first character of the
    token, so with a list of prefixes none of which is one character long
    [check_command] accepts no message. *)
Theorem check_command_long_prefixes (message : Message) (C : list string)
    (prefixes : list string) (ic im : bool) (r : fres) :
  Forall (fun p => String.length p ≠ 1%nat) prefixes →
  check_command me message C (StrList prefixes) ic im = Ok r →
  fres_truthy r = false.
Proof.
  intros Hlen. unfold check_command.
  destruct (truthy (text message)); [|by intros [= <-]].
  cbn [negb]. destruct (split (text message)) as [|[|p token] rest]; [done..|].
  destruct (partition "@" token) as [[command sep] mention].
  match goal with
  | |- (?m ≫= _) = _ → _ => destruct m as [[|]|e]; cbn [mbind result_bind]
  end; [by intros [= <-] | | done].
  cbn [in_str_or_list].
  destruct (mem (String p EmptyString) prefixes) eqn:Hmem; cbn [negb];
    [|by intros [= <-]].
  apply mem_spec in Hmem. rewrite Forall_forall in Hlen.
  by destruct (Hlen _ Hmem).
Qed.

End CommandEdges.

Lemma check_command_blank_witness :
  check_command Sample.bot (Sample.msg "   ") ["start"] (OneStr "/") true false
  = Raise IndexError.
Proof.
  apply (check_command_blank Sample.bot (Sample.msg "   ")). reflexivity.
Defined.

Lemma check_command_text_round_trip_witness :
  check_command Sample.bot (Sample.msg "/start@echo_bot now") ["start"]
    (OneStr "/") true false
  = Ok (FDict [("command",
                KCommand {| cmd_prefix := "/"; cmd_command := "start";
                            cmd_mention := "echo_bot"; cmd_args := None |})])
  ∧ ∃ obj token rest,
      FDict [("command",
              KCommand {| cmd_prefix := "/"; cmd_command := "start";
                          cmd_mention := "echo_bot"; cmd_args := None |})]
      = FDict [("command", KCommand obj)]
      ∧ PyStr.split "/start@echo_bot now" = token :: rest
      ∧ (token = CommandObj_text obj ∨ token = CommandObj_text obj +:+ "@").
Proof.
  split; [reflexivity|].
  apply (check_command_text_round_trip Sample.bot
           (Sample.msg "/start@echo_bot now") ["start"] (OneStr "/") true false);
    reflexivity.
Defined.

Lemma check_command_long_prefixes_witness :
  Forall (fun p => String.length p ≠ 1%nat) ["!!"; "//"]
  ∧ check_command Sample.bot (Sample.msg "!!start") ["start"]
      (StrList ["!!"; "//"]) true false = Ok FFalse
  ∧ fres_truthy FFalse = false.
Proof.
  assert (Forall (fun p => String.length p ≠ 1%nat) ["!!"; "//"]) as H
    by (repeat constructor; discriminate).
  split; [exact H|]. split; [reflexivity|].
  apply (check_command_long_prefixes Sample.bot (Sample.msg "!!start")
           ["start"] ["!!"; "//"] true false FFalse H).
  reflexivity.
Defined.

(** ** Text: how the modes relate *)

Section TextModes.
Import PyStrFacts.

Variables (e : MessageEvent) (obj : Message) (ic : bool).

Lemma Text_init_single_mode (l : list string) :
  Text_init (Some (StrList l)) None None None ic = Ok (Text_equals l ic)
  ∧ Text_init None (Some (StrList l)) None None ic = Ok (Text_contains l ic)
  ∧ Text_init None None (Some (StrList l)) None ic = Ok (Text_startswith l ic)
  ∧ Text_init None None None (Some (StrList l)) ic = Ok (Text_endswith l ic).
Proof. done. Qed.

Lemma Text_check_equals_eq l :
  Text_check (Text_equals l ic) (MsgEvent e) obj
  = fres_of_bool (PyStr.mem (fold_case ic (text obj)) (map (fold_case ic) l)).
Proof. unfold Text_equals. by destruct ic. Qed.

Lemma mem_in_map (f : string → string) t l :
  PyStr.mem t (map f l) = true ↔ Exists (fun s => t = f s) l.
Proof.
  rewrite mem_spec, list_elem_of_In, in_map_iff, Exists_exists.
  split; intros (s & H1 & H2); exists s.
  - split; [by apply list_elem_of_In | done].
  - split; [done | by apply list_elem_of_In].
Qed.

(** X8.  A text that [Text(equals=L)] accepts is accepted by
    [Text(startswith=L)] and by [Text(endswith=L)] as well; and for a
    single pattern, a text accepted in [startswith] or [endswith] mode is
    accepted in [contains] mode. *)
Theorem Text_modes_inclusion (l : list string) (pattern : string) :
  (fres_truthy (Text_check (Text_equals l ic) (MsgEvent e) obj) = true →
   fres_truthy (Text_check (Text_startswith l ic) (MsgEvent e) obj) = true
   ∧ fres_truthy (Text_check (Text_endswith l ic) (MsgEvent e) obj) = true)
  ∧ (fres_truthy (Text_check (Text_startswith [pattern] ic) (MsgEvent e) obj) = true
     ∨ fres_truthy (Text_check (Text_endswith [pattern] ic) (MsgEvent e) obj) = true →
     fres_truthy (Text_check (Text_contains [pattern] ic) (MsgEvent e) obj) = true).
Proof.
  unfold Text_contains, Text_startswith, Text_endswith.
  rewrite Text_check_equals_eq, !Text_check_startswith_eq, !Text_check_endswith_eq,
    Text_check_contains_eq, !fres_truthy_of_bool.
  rewrite mem_in_map, !startswith_any, !endswith_any, contains_all.
  split.
  - intros Heq. split; eapply Exists_impl; try exact Heq; cbn; intros s ->.
    + exists EmptyString. by rewrite app_nil_r.
    + by exists EmptyString.
  - intros [H|H]; apply Exists_cons in H as [H|H]; try by apply Exists_nil in H.
    + destruct H as [b Hb]. apply Forall_singleton. by exists EmptyString, b.
    + destruct H as [a Ha]. apply Forall_singleton. exists a, EmptyString.
      by rewrite app_nil_r.
Qed.

(** X9.  With an empty list of patterns [contains] accepts every message
    event, while [equals], [startswith] and [endswith] reject every one;
    with the empty string as the pattern [contains], [startswith] and
    [endswith] accept every message event. *)
Theorem Text_check_vacuous :
  Text_check (Text_contains [] ic) (MsgEvent e) obj = FTrue
  ∧ Text_check (Text_equals [] ic) (MsgEvent e) obj = FFalse
  ∧ Text_check (Text_startswith [] ic) (MsgEvent e) obj = FFalse
  ∧ Text_check (Text_endswith [] ic) (MsgEvent e) obj = FFalse
  ∧ fres_truthy (Text_check (Text_contains [""] ic) (MsgEvent e) obj) = true
  ∧ fres_truthy (Text_check (Text_startswith [""] ic) (MsgEvent e) obj) = true
  ∧ fres_truthy (Text_check (Text_endswith [""] ic) (MsgEvent e) obj) = true.
Proof.
  unfold Text_contains, Text_startswith, Text_endswith.
  rewrite Text_check_equals_eq, !Text_check_startswith_eq, !Text_check_endswith_eq,
    !Text_check_contains_eq, !fres_truthy_of_bool.
  repeat split.
  - apply contains_all, Forall_singleton.
    exists EmptyString, (fold_case ic (text obj)). by destruct ic.
  - apply startswith_any, Exists_cons. left.
    exists (fold_case ic (text obj)). by destruct ic.
  - apply endswith_any, Exists_cons. left.
    exists (fold_case ic (text obj)). destruct ic; cbn; by rewrite app_nil_r.
Qed.

End TextModes.

Lemma Text_modes_inclusion_witness :
  fres_truthy
    (Text_check (Text_startswith ["hel"; "Hi"] true)
                (Sample.message_event "1" "2" "HI") (Sample.msg "HI")) = true
  ∧ fres_truthy
      (Text_check (Text_endswith ["hel"; "Hi"] true)
                  (Sample.message_event "1" "2" "HI") (Sample.msg "HI")) = true.
Proof.
  apply (proj1 (Text_modes_inclusion
                  {| event_base := Sample.event "1" "2"; message := Sample.msg "HI" |}
                  (Sample.msg "HI") true ["hel"; "Hi"] "")).
  reflexivity.
Defined.

(** ** IDFilter: what the constructor stores *)

Lemma mapM_result_length {A B} (f : A → result B) (l : list A) (k : list B) :
  mapM f l = Ok k → length k = length l.
Proof.
  revert k. induction l as [|x l IH]; intros k; cbn.
  - by intros [= <-].
  - destruct (f x) as [y|e]; cbn; [|done].
    destruct (mapM f l) as [k'|e]; cbn; [|done].
    intros [= <-]. cbn. by rewrite (IH k').
Qed.

Lemma mapM_result_Forall {A B} (P : B → Prop) (f : A → result B)
    (l : list A) (k : list B) :
  (∀ x y, x ∈ l → f x = Ok y → P y) → mapM f l = Ok k → Forall P k.
Proof.
  revert k. induction l as [|x l IH]; intros k HP; cbn.
  - intros [= <-]. constructor.
  - destruct (f x) as [y|e] eqn:Hy; cbn; [|done].
    destruct (mapM f l) as [k'|e] eqn:Hk; cbn; [|done].
    intros [= <-]. constructor.
    + eapply HP; [apply elem_of_cons; by left | exact Hy].
    + apply IH; [|done]. intros x' y' Hx'. apply HP, elem_of_cons. by right.
Qed.

Lemma id_list_nil a :
  id_arg_truthy a = true → id_list a = Ok [] ↔ a = IdIter [].
Proof.
  intros Ht. split; [|by intros ->].
  destruct a as [[z|s]|k|k]; cbn [id_list id_arg_truthy] in *.
  - done.
  - intros H%mapM_result_length. by destruct s.
  - intros H%mapM_result_length. by destruct k.
  - intros H%mapM_result_length. by destruct k.
Qed.

(** What the constructor keeps of one argument. *)
Lemma IDFilter_init_stored (arg : option id_arg) (r : option (list Z)) :
  match arg with
  | Some a => if id_arg_truthy a then Some <$> id_list a else Ok None
  | None => Ok None
  end = Ok r →
  (r = None ↔ match arg with Some a => id_arg_truthy a = false | None => True end)
  ∧ (r = Some [] ↔ arg = Some (IdIter [])).
Proof.
  destruct arg as [a|]; [|by intros [= <-]].
  destruct (id_arg_truthy a) eqn:Ht.
  - destruct (id_list a) as [k|e] eqn:Hk; cbn; [|done]. intros [= <-].
    split; [done|]. split.
    + intros [= ->]. f_equal. by apply (id_list_nil a Ht).
    + intros [= ->]. cbn in Hk. by injection Hk as <-.
  - intros [= <-]. split; [done|]. split; [done|]. by intros [= ->].
Qed.

(** [int(c)] for a one-character string is a decimal digit or fails. *)
Lemma int_of_char c z :
  PyInt.int (PStr (String c EmptyString)) = Ok z → (0 ≤ z ≤ 9)%Z.
Proof.
  destruct c as [[] [] [] [] [] [] [] []]; vm_compute;
    first [discriminate | intros [= <-]; split; discriminate].
Qed.

Lemma chars_length s : length (chars s) = String.length s.
Proof. induction s as [|c s IH]; [done|]. cbn. by rewrite IH. Qed.

Lemma elem_of_chars x s : x ∈ chars s → ∃ c, x = PStr (String c EmptyString).
Proof.
  induction s as [|c s IH]; cbn; [by intros ?%elem_of_nil|].
  intros [->|H]%elem_of_cons; [by exists c | by apply IH].
Qed.

(** X10.  What [IDFilter.__init__] keeps of its arguments.  An argument
    is stored as [None] exactly when it was not given or is falsy ([0], the
    empty string, an empty list): a falsy argument passes the "both are
    None" guard.  A stored list is empty exactly when the argument is an
    iterator or generator that yields nothing: such an object is truthy,
    so [list(map(int, ...))] runs on it. *)
Theorem IDFilter_init_lists (user_id' chat_id' : option id_arg) (f : IDFilter) :
  IDFilter_init user_id' chat_id' = Ok f →
  (user_id f = None ↔
   match user_id' with Some a => id_arg_truthy a = false | None => True end)
  ∧ (chat_id f = None ↔
     match chat_id' with Some a => id_arg_truthy a = false | None => True end)
  ∧ (user_id f = Some [] ↔ user_id' = Some (IdIter []))
  ∧ (chat_id f = Some [] ↔ chat_id' = Some (IdIter [])).
Proof.
  unfold IDFilter_init.
  destruct (negb (given user_id') && negb (given chat_id')); [done|].
  unfold mbind, result_bind.
  match goal with
  | |- context [match ?m with Ok _ => _ | Raise _ => _ end] =>
      destruct m as [u|e] eqn:Hu; [|done]
  end.
  match goal with
  | |- context [match ?m with Ok _ => _ | Raise _ => _ end] =>
      destruct m as [c|e] eqn:Hc; [|done]
  end.
  intros [= <-]. cbn [user_id chat_id].
  destruct (IDFilter_init_stored _ _ Hu) as [Hu1 Hu2].
  destruct (IDFilter_init_stored _ _ Hc) as [Hc1 Hc2].
  done.
Qed.

Lemma IDFilter_init_lists_witness :
  let f := {| user_id := Some []; chat_id := None |} in
  (user_id f = None ↔ id_arg_truthy (IdIter []) = false)
  ∧ (chat_id f = None ↔ id_arg_truthy (IdMany []) = false)
  ∧ (user_id f = Some [] ↔ Some (IdIter []) = Some (IdIter []))
  ∧ (chat_id f = Some [] ↔ Some (IdMany []) = Some (IdIter [])).
Proof.
  apply (IDFilter_init_lists (Some (IdIter [])) (Some (IdMany []))).
  reflexivity.
Defined.

(** X11.  A [str] given as [user_id] is iterated character by character:
    when the constructor succeeds, the stored list has one decimal digit
    for each character of the string, not the number the string spells. *)
Theorem IDFilter_init_str_digits (s : string) (chat_id' : option id_arg)
    (f : IDFilter) :
  IDFilter_init (Some (IdOne (PStr s))) chat_id' = Ok f →
  PyStr.truthy s = true →
  ∃ l, user_id f = Some l
     ∧ length l = String.length s
     ∧ Forall (fun z => (0 ≤ z ≤ 9)%Z) l.
Proof.
  unfold IDFilter_init. cbn [given negb andb id_arg_truthy id_list].
  intros H Hs. rewrite Hs in H.
  destruct (mapM PyInt.int (chars s)) as [l|e] eqn:Hl; cbn in H; [|done].
  assert (user_id f = Some l) as Hf.
  { destruct chat_id' as [c|]; cbn in H.
    - destruct (id_arg_truthy c); cbn in H.
      + destruct (id_list c); cbn in H; [|done]. by injection H as <-.
      + by injection H as <-.
    - by injection H as <-. }
  exists l. split; [exact Hf|]. split.
  - by rewrite (mapM_result_length _ _ _ Hl), chars_length.
  - eapply mapM_result_Forall; [|exact Hl].
    intros x y [c ->]%elem_of_chars. apply int_of_char.
Qed.

Lemma IDFilter_init_str_digits_witness :
  ∃ l, user_id {| user_id := Some [1%Z; 0%Z; 5%Z]; chat_id := None |} = Some l
     ∧ length l = String.length "105"
     ∧ Forall (fun z => (0 ≤ z ≤ 9)%Z) l.
Proof.
  apply (IDFilter_init_str_digits "105" None); reflexivity.
Defined.

(** ** StateFilter: several states, stored states, the state handle *)

(** X12.  A wildcard anywhere among the states of a [StateFilter], as a
    plain ["*"], as the state of a [State] object or as a name of a
    [StatesGroup], makes the filter accept every event with [state] alone
    and without a storage read, whatever the other states are. *)
Theorem StateFilter_wildcard_among_states (items : list state_item)
    (event : eventobj) (obj : Message) (l : Local) (s : Shared) :
  (ItemRaw (Some "*") ∈ items
   ∨ ItemState (Some "*") ∈ items
   ∨ ∃ names, ItemGroup names ∈ items ∧ "*" ∈ names) →
  StateFilter_check (StateFilter_init (StateMany items)) event obj l s
  = (Ok (FDict [("state",
                 KState {| fsm_chat := recipient_id <$> current_recipient l;
                           fsm_user := sender_id <$> current_sender l |})]), l, s).
Proof.
  intros H. apply StateFilter_check_wildcard.
  unfold state_in. apply bool_decide_eq_true. cbn [StateFilter_init states].
  apply list_elem_of_In, in_flat_map.
  destruct H as [H | [H | (names & H & Hn)]].
  - exists (ItemRaw (Some "*")). split; [by apply list_elem_of_In | by left].
  - exists (ItemState (Some "*")). split; [by apply list_elem_of_In | by left].
  - exists (ItemGroup names). split; [by apply list_elem_of_In|].
    apply in_map, list_elem_of_In, Hn.
Qed.

Lemma StateFilter_wildcard_among_states_witness :
  StateFilter_check
    (StateFilter_init (StateMany [ItemRaw (Some "form:name");
                                  ItemGroup ["form:age"; "*"]]))
    (Sample.message_event "1" "2" "hi") (Sample.msg "hi")
    Sample.local0 (Sample.shared0 Sample.storage1)
  = (Ok (FDict [("state", KState {| fsm_chat := None; fsm_user := None |})]),
     Sample.local0, Sample.shared0 Sample.storage1).
Proof.
  apply (StateFilter_wildcard_among_states
           [ItemRaw (Some "form:name"); ItemGroup ["form:age"; "*"]]
           (Sample.message_event "1" "2" "hi") (Sample.msg "hi")
           Sample.local0 (Sample.shared0 Sample.storage1)).
  right. right. exists ["form:age"; "*"]. split.
  - apply elem_of_cons. right. apply elem_of_cons. by left.
  - apply elem_of_cons. right. apply elem_of_cons. by left.
Defined.

(** X13.  A [StateFilter] without wildcard, on an event with a recipient
    or sender id and with no state cached yet, reads the storage once, at
    the key (recipient id, sender id); it accepts exactly when the stored
    state is one of its states, then yields [state] and the stored state as
    [raw_state]; accepted or not, the stored state is cached for the rest of
    the dispatch and the storage is left as it was. *)
Theorem StateFilter_check_stored_state (self : StateFilter) (event : eventobj)
    (obj : Message) (l : Local) (s : Shared) :
  state_in (Some "*") (states self) = false →
  ctx_state l = None →
  PyStr.truthy (recipient_id (recipient (event_of event)))
  || PyStr.truthy (sender_id (sender (event_of event))) = true →
  let chat := Some (recipient_id (recipient (event_of event))) in
  let user := Some (sender_id (sender (event_of event))) in
  let state := get_state (storage s) chat user in
  let run := StateFilter_check self event obj l s in
  fres_truthy <$> run.1.1 = Ok (bool_decide (state ∈ states self))
  ∧ (state ∈ states self →
     run.1.1
     = Ok (FDict [("state",
                   KState {| fsm_chat := recipient_id <$> current_recipient l;
                             fsm_user := sender_id <$> current_sender l |});
                  ("raw_state", KRawState state)]))
  ∧ ctx_state run.1.2 = Some state
  ∧ get_state_calls run.2 = (get_state_calls s ++ [(chat, user)])%list
  ∧ storage run.2 = storage s.
Proof.
  intros Hany Hc Hid chat user state run. unfold run.
  rewrite StateFilter_check_read by done. cbn [fst snd]. fold chat user state.
  unfold state_in. repeat split.
  - by destruct (bool_decide (state ∈ states self)).
  - intros Hin. by rewrite bool_decide_eq_true_2.
Qed.

Lemma StateFilter_check_stored_state_witness :
  let run := StateFilter_check
               (StateFilter_init (StateOne (ItemRaw (Some "form:name"))))
               (Sample.message_event "1" "2" "hi") (Sample.msg "hi")
               Sample.local0 (Sample.shared0 Sample.storage1) in
  fres_truthy <$> run.1.1 = Ok true
  ∧ ctx_state run.1.2 = Some (Some "form:name")
  ∧ get_state_calls run.2 = [(Some "2", Some "1")].
Proof.
  pose proof (StateFilter_check_stored_state
                (StateFilter_init (StateOne (ItemRaw (Some "form:name"))))
                (Sample.message_event "1" "2" "hi") (Sample.msg "hi")
                Sample.local0 (Sample.shared0 Sample.storage1)
                eq_refl eq_refl eq_refl) as (H1 & _ & H3 & H4 & _).
  split; [exact H1|]. split; [exact H3 | exact H4].
Defined.


(** X14.  In the context that [process_event] sets up for a message
    event, the FSM context that an accepting [StateFilter] hands to the
    handler is bound to the recipient id and the sender id of that event,
    which is the key that the filter reads the storage at. *)
Theorem StateFilter_state_handle (self : StateFilter) (e : MessageEvent)
    (l : Local) (s : Shared) (r : fres) :
  let l1 := {| current_recipient := Some (recipient (event_base e));
               current_sender := Some (sender (event_base e));
               ctx_state := ctx_state l;
               context := context l |} in
  let key := get_target (MsgEvent e) in
  let run := StateFilter_check self (MsgEvent e) (message e) l1 s in
  run.1.1 = Ok r →
  fres_truthy r = true →
  (∃ more, r = FDict (("state", KState {| fsm_chat := key.1; fsm_user := key.2 |})
                      :: more))
  ∧ (get_state_calls run.2 = get_state_calls s
     ∨ get_state_calls run.2 = (get_state_calls s ++ [key])%list).
Proof.
  intros l1 key run. unfold run.
  destruct (state_in (Some "*") (states self)) eqn:Hany.
  { rewrite StateFilter_check_wildcard by done. cbn [fst snd].
    intros [= <-] _. split; [by eexists | by left]. }
  destruct (ctx_state l) as [cached|] eqn:Hc.
  { rewrite (StateFilter_check_cached _ _ _ _ _ cached) by done. cbn [fst snd].
    destruct (state_in cached (states self)); intros [= <-]; [|done].
    intros _. split; [by eexists | by left]. }
  destruct (PyStr.truthy (recipient_id (recipient (event_base e)))
            || PyStr.truthy (sender_id (sender (event_base e)))) eqn:Hid.
  - rewrite StateFilter_check_read by done. cbn [fst snd].
    destruct (state_in (get_state _ _ _) (states self)); intros [= <-]; [|done].
    intros _. split; [by eexists | by right].
  - rewrite StateFilter_check_no_target by done. cbn [fst snd].
    by intros [= <-].
Qed.

Lemma StateFilter_state_handle_witness :
  (∃ more,
     FDict [("state", KState {| fsm_chat := Some "2"; fsm_user := Some "3" |});
            ("raw_state", KRawState None)]
     = FDict (("state", KState {| fsm_chat := Some "2"; fsm_user := Some "3" |})
              :: more))
  ∧ (get_state_calls
       (StateFilter_check (StateFilter_init (StateOne (ItemRaw None)))
          (Sample.message_event "3" "2" "hi") (Sample.msg "hi")
          {| current_recipient := Some {| recipient_id := "2" |};
             current_sender := Some {| sender_id := "3" |};
             ctx_state := None; context := Some Sample.webhook_context |}
          (Sample.shared0 Sample.storage1)).2 = []
     ∨ get_state_calls
         (StateFilter_check (StateFilter_init (StateOne (ItemRaw None)))
            (Sample.message_event "3" "2" "hi") (Sample.msg "hi")
            {| current_recipient := Some {| recipient_id := "2" |};
               current_sender := Some {| sender_id := "3" |};
               ctx_state := None; context := Some Sample.webhook_context |}
            (Sample.shared0 Sample.storage1)).2
       = [(Some "2", Some "3")]).
Proof.
  apply (StateFilter_state_handle (StateFilter_init (StateOne (ItemRaw None)))
           {| event_base := Sample.event "3" "2"; message := Sample.msg "hi" |}
           Sample.local0 (Sample.shared0 Sample.storage1));
    reflexivity.
Defined.

(** ** What a dispatch leaves alone *)

Section Keeps.

Context {X : Type} (proj : Shared → X).

(** The observation does not depend on the log of storage reads, on the
    log of invoked handlers or on the pending tasks. *)
Hypothesis proj_calls : ∀ st calls calls' pend inv notes ehi factory errs,
  proj {| storage := st; get_state_calls := calls; pending := pend;
          invoked := inv; error_notifications := notes;
          error_handlers_invoked := ehi; loop_factory := factory;
          callback_errors := errs |}
  = proj {| storage := st; get_state_calls := calls'; pending := pend;
            invoked := inv; error_notifications := notes;
            error_handlers_invoked := ehi; loop_factory := factory;
            callback_errors := errs |}.
Hypothesis proj_invoked : ∀ st calls pend inv inv' notes ehi factory errs,
  proj {| storage := st; get_state_calls := calls; pending := pend;
          invoked := inv; error_notifications := notes;
          error_handlers_invoked := ehi; loop_factory := factory;
          callback_errors := errs |}
  = proj {| storage := st; get_state_calls := calls; pending := pend;
            invoked := inv'; error_notifications := notes;
            error_handlers_invoked := ehi; loop_factory := factory;
            callback_errors := errs |}.
Hypothesis proj_pending : ∀ st calls pend pend' inv notes ehi factory errs,
  proj {| storage := st; get_state_calls := calls; pending := pend;
          invoked := inv; error_notifications := notes;
          error_handlers_invoked := ehi; loop_factory := factory;
          callback_errors := errs |}
  = proj {| storage := st; get_state_calls := calls; pending := pend';
            invoked := inv; error_notifications := notes;
            error_handlers_invoked := ehi; loop_factory := factory;
            callback_errors := errs |}.













End Keeps.

Section Spawns.






End Spawns.


(** ** The context attribute is not read during a dispatch *)

Section Blind.

Lemma same_vars_child factory l : same_vars l (child_local factory l).
Proof. done. Qed.

Lemma same_but_pending_refl s : same_but_pending s s.
Proof. done. Qed.












End Blind.

(** ** Exceptions of filters and inline handlers *)





(** X17.  A handler wrapped by [async_task]: the call returns [None] at
    once and never raises, and once the loop has run no task is left.  If
    the handler returned, the error chain has received nothing and no
    callback has failed.  If the handler raised, what follows depends on
    the tasks of the loop: when they carry a context, the error chain has
    received one notification, with that exception and with what
    [task.context] holds under [EVENT_OBJECT]; when they are plain tasks,
    the done callback has failed with [AttributeError] on [task.context],
    and the error chain has received nothing. *)
Theorem async_task_done_callback (self : Dispatcher) (func : callback)
    (event : eventobj) (message : Message) (kw : kwargs) (l : Local)
    (s : Shared) :
  pending s = [] →
  let run := call (async_task func) event message kw l s in
  let after := run_loop self run.2 in
  run.1.1 = Ok RNone
  ∧ pending after = []
  ∧ match func event message kw, loop_factory s with
    | Ok _, _ =>
        error_notifications after = error_notifications s
        ∧ callback_errors after = callback_errors s
    | Raise e, ContextTasks =>
        error_notifications after
        = (error_notifications s
           ++ [(default ∅ (context l) !! EVENT_OBJECT, e)])%list
        ∧ callback_errors after = callback_errors s
    | Raise e, PlainTasks =>
        error_notifications after = error_notifications s
        ∧ callback_errors after
          = (callback_errors s ++ [AttributeError "context"])%list
    end.
Proof.
  intros Hp run after. split; [reflexivity|]. split; [apply run_loop_quiescent|].
  destruct (func event message kw) as [v|e] eqn:Hf.
  - unfold after, run.
    destruct s as [st calls pend inv notes ehi factory errs]. cbn in Hp. subst pend.
    unfold run_loop, run_round. cbn [call async_task].
    unfold mbind, M_bind, create_task, mret, M_ret, take_pending.
    cbn [snd pending app foldl run_task task_coro storage get_state_calls
         invoked error_notifications error_handlers_invoked loop_factory
         callback_errors].
    rewrite Hf. by destruct factory.
  - pose proof (async_task_error_notification self func event message kw l s e
                  Hp Hf) as H.
    by destruct (loop_factory s).
Qed.

Lemma async_task_done_callback_witness :
  let run := call (async_task Sample.failing) (Sample.message_event "1" "2" "hi")
               (Sample.msg "hi") [] Sample.local_plain
               (Sample.shared_plain DisabledStorage) in
  let after := run_loop Sample.dp_failing run.2 in
  run.1.1 = Ok RNone
  ∧ pending after = []
  ∧ error_notifications after = []
  ∧ callback_errors after = ([] ++ [AttributeError "context"])%list.
Proof.
  apply (async_task_done_callback Sample.dp_failing Sample.failing
           (Sample.message_event "1" "2" "hi") (Sample.msg "hi") []
           Sample.local_plain (Sample.shared_plain DisabledStorage)).
  reflexivity.
Defined.

(** The same handler on a loop whose tasks carry a context. *)
Example async_task_done_callback_context :
  let run := call (async_task Sample.failing) (Sample.message_event "1" "2" "hi")
               (Sample.msg "hi") [] Sample.local0 (Sample.shared0 DisabledStorage) in
  let after := run_loop Sample.dp_failing run.2 in
  error_notifications after = [(None, HandlerError "boom")]
  ∧ callback_errors after = [].
Proof. split; vm_compute; reflexivity. Qed.

(** ** Payloads *)

Section PayloadFacts.

Lemma model_dict_not_model v : not_model (model_dict v) = true.
Proof. by destruct v. Qed.

(** The loop of [generate_payload], one item at a time. *)
Lemma generate_payload_cons depth exclude key value kwargs :
  generate_payload (S depth) exclude ((key, value) :: kwargs)
  = if skipped (exclude_set exclude) key value
    then generate_payload (S depth) exclude kwargs
    else
      match value with
      | OModel fields =>
          let d := map (fun kv => (kv.1, model_dict kv.2)) fields in
          if PyStr.mem "exclude" (map fst d)
          then PRaise (TypeError
                 "generate_payload() got multiple values for keyword argument 'exclude'")
          else
            inner ← generate_payload depth (ExcludeSet (exclude_set exclude)) d;
            _d ← generate_payload (S depth) exclude kwargs;
            POk ((key, ODict inner) :: _d)
      | _ =>
          _d ← generate_payload (S depth) exclude kwargs;
          POk ((key, value) :: _d)
      end.
Proof. by destruct value. Qed.

(** One frame is enough for keywords without models. *)
Lemma generate_payload_flat depth exclude kwargs :
  Forall (fun kv => not_model kv.2 = true) kwargs →
  generate_payload (S depth) exclude kwargs
  = POk (filter (fun kv => skipped (exclude_set exclude) kv.1 kv.2 = false) kwargs).
Proof.
  induction 1 as [|[key value] kwargs Hv _ IH]; [done|].
  rewrite generate_payload_cons, filter_cons. cbn [fst snd] in *.
  destruct (skipped (exclude_set exclude) key value) eqn:Hs.
  - rewrite decide_False by congruence. exact IH.
  - rewrite decide_True by done.
    destruct value; try discriminate Hv; by rewrite IH.
Qed.

Lemma Forall_model_dict fields :
  Forall (fun kv : string * pyobj => not_model kv.2 = true)
         (map (fun kv => (kv.1, model_dict kv.2)) fields).
Proof.
  apply Forall_forall. intros kv [kv' [<- _]]%list_elem_of_In%in_map_iff.
  apply model_dict_not_model.
Qed.

Lemma generate_payload_payload_items depth exclude kwargs :
  generate_payload (S (S depth)) exclude kwargs
  = payload_items (exclude_set exclude) kwargs.
Proof.
  induction kwargs as [|[key value] kwargs IH]; [done|].
  rewrite generate_payload_cons. cbn [payload_items].
  destruct (skipped (exclude_set exclude) key value); [exact IH|].
  destruct value; try by rewrite IH.
  unfold model_payload. cbn zeta.
  destruct (PyStr.mem "exclude" _); [done|].
  rewrite (generate_payload_flat depth (ExcludeSet (exclude_set exclude))
             (map (fun kv => (kv.1, model_dict kv.2)) fields))
    by apply Forall_model_dict.
  cbn [exclude_set mbind presult_bind]. by rewrite IH.
Qed.

(** X18.  With two frames or more, [generate_payload] never runs out of
    frames and its result does not depend on how many there are: the call
    for a model is the only recursive one, and it recurses no further. *)
Theorem generate_payload_two_frames (depth : nat) (exclude : exclude_arg)
    (kwargs : list (string * pyobj)) :
  generate_payload (S (S depth)) exclude kwargs
  = payload_items (exclude_set exclude) kwargs
  ∧ payload_items (exclude_set exclude) kwargs ≠ PRaise RecursionError.
Proof.
  split; [apply generate_payload_payload_items|].
  induction kwargs as [|[key value] kwargs IH]; [done|].
  cbn [payload_items].
  destruct (skipped (exclude_set exclude) key value); [exact IH|].
  destruct value;
    try (destruct (payload_items (exclude_set exclude) kwargs); by cbn).
  unfold model_payload. destruct (PyStr.mem "exclude" _); [done|].
  cbn. by destruct (payload_items (exclude_set exclude) kwargs).
Qed.

(** X19.  What [generate_payload] returns has, in the order of the
    keywords, only keys that were given, none of which is excluded or
    starts with an underscore; no value is [None] and no value is a model.
    Under the default [exclude], or a list, the keys [self] and [cls] never
    appear. *)
Theorem generate_payload_items (depth : nat) (exclude : exclude_arg)
    (kwargs d : list (string * pyobj)) :
  generate_payload (S (S depth)) exclude kwargs = POk d →
  map fst d `sublist_of` map fst kwargs
  ∧ Forall (fun kv => (kv.1 ∉ exclude_set exclude)
                      ∧ PyStr.startswith kv.1 "_" = false
                      ∧ is_None kv.2 = false
                      ∧ not_model kv.2 = true) d
  ∧ (match exclude with ExcludeSet _ => True | _ =>
       ("self" ∉ map fst d) ∧ ("cls" ∉ map fst d) end).
Proof.
  rewrite generate_payload_payload_items.
  intros H.
  assert (map fst d `sublist_of` map fst kwargs
          ∧ Forall (fun kv => (kv.1 ∉ exclude_set exclude)
                              ∧ PyStr.startswith kv.1 "_" = false
                              ∧ is_None kv.2 = false
                              ∧ not_model kv.2 = true) d) as [Hsub Hall].
  { revert d H. induction kwargs as [|[key value] kwargs IH]; intros d.
    - intros [= <-]. split; [done | constructor].
    - cbn [payload_items].
      destruct (skipped (exclude_set exclude) key value) eqn:Hs.
      + intros [Hsub Hall]%IH. split; [|done]. by apply sublist_cons.
      + assert ((key ∉ exclude_set exclude) ∧ PyStr.startswith key "_" = false
                ∧ is_None value = false) as (Hk1 & Hk2 & Hk3).
        { unfold skipped in Hs.
          apply orb_false_iff in Hs as [[H1 H2]%orb_false_iff H3].
          split; [|done]. intros Hin%PyStrFacts.mem_spec. congruence. }
        assert (∀ inner, not_model inner = true → is_None inner = false →
                ∀ rest, payload_items (exclude_set exclude) kwargs = POk rest →
                map fst ((key, inner) :: rest) `sublist_of` map fst ((key, value) :: kwargs)
                ∧ Forall (fun kv => (kv.1 ∉ exclude_set exclude)
                              ∧ PyStr.startswith kv.1 "_" = false
                              ∧ is_None kv.2 = false
                              ∧ not_model kv.2 = true) ((key, inner) :: rest)) as Hstep.
        { intros inner Hi1 Hi2 rest [Hsub Hall]%IH. split.
          - cbn. by apply sublist_skip.
          - by constructor. }
        destruct value;
          try (destruct (payload_items (exclude_set exclude) kwargs) as [rest|];
               cbn; [|done]; intros [= <-]; by apply Hstep).
        unfold model_payload. destruct (PyStr.mem "exclude" _); [done|].
        cbn [mbind presult_bind].
        destruct (payload_items (exclude_set exclude) kwargs) as [rest|];
          cbn; [|done]. intros [= <-]. by apply Hstep. }
  split; [exact Hsub|]. split; [exact Hall|].
  rewrite Forall_forall in Hall.
  assert (∀ k, k ∈ exclude_set exclude → k ∉ map fst d) as Hex.
  { intros k Hk Hin. apply list_elem_of_In, in_map_iff in Hin as [kv [<- Hkv]].
    apply list_elem_of_In in Hkv. by destruct (Hall kv Hkv) as [? _]. }
  destruct exclude as [|l|s]; [| |done]; cbn [exclude_set] in Hex.
  - split; apply Hex; unfold DEFAULT_FILTER;
      [by apply elem_of_cons; left
      | by apply elem_of_cons; right; apply elem_of_cons; left].
  - split; apply Hex; apply elem_of_app; right; unfold DEFAULT_FILTER;
      [by apply elem_of_cons; left
      | by apply elem_of_cons; right; apply elem_of_cons; left].
Qed.

End PayloadFacts.

Lemma generate_payload_items_witness :
  map fst [("message", ODict [("text", OStr "hi")])]
    `sublist_of` map fst [("self", ONone); ("message", OModel [("text", OStr "hi")]);
                          ("_private", OInt 1); ("tag", ONone)]
  ∧ Forall (fun kv => (kv.1 ∉ exclude_set ExcludeNone)
                      ∧ PyStr.startswith kv.1 "_" = false
                      ∧ is_None kv.2 = false
                      ∧ not_model kv.2 = true)
           [("message", ODict [("text", OStr "hi")])]
  ∧ ("self" ∉ map fst [("message", ODict [("text", OStr "hi")])])
    ∧ ("cls" ∉ map fst [("message", ODict [("text", OStr "hi")])]).
Proof.
  apply (generate_payload_items 0 ExcludeNone
           [("self", ONone); ("message", OModel [("text", OStr "hi")]);
            ("_private", OInt 1); ("tag", ONone)]
           [("message", ODict [("text", OStr "hi")])]).
  reflexivity.
Defined.

(** X20.  A model passed as a keyword becomes the dict of its fields
    without the fields that are [None], excluded or named with a leading
    underscore; the values are those of [dict()], so a model inside the
    model is copied as a plain dict with its [None] fields kept.  A model
    with a field named [exclude] cannot be passed: the call fails with
    [TypeError]. *)
Theorem generate_payload_model (depth : nat) (exclude : exclude_arg)
    (key : string) (fields : list (string * pyobj)) :
  skipped (exclude_set exclude) key (OModel fields) = false →
  generate_payload (S (S depth)) exclude [(key, OModel fields)]
  = if PyStr.mem "exclude" (map fst fields)
    then PRaise (TypeError
           "generate_payload() got multiple values for keyword argument 'exclude'")
    else POk [(key,
               ODict (filter (fun kv => skipped (exclude_set exclude) kv.1 kv.2 = false)
                             (map (fun kv => (kv.1, model_dict kv.2)) fields)))].
Proof.
  intros Hkey.
  rewrite generate_payload_payload_items.
  cbn [payload_items]. rewrite Hkey. unfold model_payload.
  assert (map fst (map (fun kv : string * pyobj => (kv.1, model_dict kv.2)) fields)
          = map fst fields) as ->.
  { induction fields as [|kv fields IH]; [done|]. cbn. by rewrite IH. }
  by destruct (PyStr.mem "exclude" (map fst fields)).
Qed.

Lemma generate_payload_model_witness :
  generate_payload 2 ExcludeNone [("message", Sample.nested_model)]
  = POk [("message",
          ODict [("text", OStr "hi");
                 ("attachment", ODict [("type", OStr "image"); ("payload", ONone)])])].
Proof.
  exact (generate_payload_model 0 ExcludeNone "message"
           [("text", OStr "hi"); ("metadata", ONone);
            ("attachment", OModel [("type", OStr "image"); ("payload", ONone)])]
           eq_refl).
Defined.

(** ** Message.send_message *)

Lemma recursion_limit_frames : ∃ depth, recursion_limit = S (S depth).
Proof. by exists 998%nat. Qed.

(** X21.  [send_message] with a [sender_action] always raises
    [FBException], with or without a message: the list of all local names
    is compared with [['sender_action', 'recipient']], which it never
    equals. *)
Theorem send_message_sender_action (self : Message) (recipient : RecipientRequest)
    (message : option MessageRequest) (sender_action : string)
    (notification_type tag : option string) (messaging_type : string) :
  ∃ msg,
    send_message self recipient message (Some sender_action) notification_type
      tag messaging_type
    = PRaise (FBException msg).
Proof.
  unfold send_message. destruct message; cbn [given andb]; by eexists.
Qed.

(** X22.  [send_message] without [sender_action] hands a payload to the
    API that holds the recipient as the dict of its fields that are not
    [None], the messaging type, the message exactly when one is given, and
    neither [self] nor [sender_action]. *)
Theorem send_message_payload (self : Message) (recipient : RecipientRequest)
    (message : option MessageRequest) (notification_type tag : option string)
    (messaging_type : string) :
  ∃ d,
    send_message self recipient message None notification_type tag messaging_type
    = POk d
    ∧ dict_get "recipient" d
      = Some (ODict (filter (fun kv => is_None kv.2 = false)
                            [("id", opt_str (rr_id recipient));
                             ("user_ref", opt_str (rr_user_ref recipient));
                             ("post_id", opt_str (rr_post_id recipient));
                             ("comment_id", opt_str (rr_comment_id recipient))]))
    ∧ dict_get "messaging_type" d = Some (OStr messaging_type)
    ∧ (dict_get "message" d = None ↔ message = None)
    ∧ dict_get "self" d = None
    ∧ dict_get "sender_action" d = None
    ∧ dict_get "notification_type" d = OStr <$> notification_type
    ∧ dict_get "tag" d = OStr <$> tag.
Proof.
  unfold send_message. rewrite andb_false_r. cbn [given andb].
  destruct recursion_limit_frames as [depth ->].
  rewrite generate_payload_payload_items.
  destruct recipient as [[i|] [u|] [p|] [c|]], message as [m|],
    notification_type as [nt|], tag as [t|];
    (eexists; split; [reflexivity|]; repeat split; done).
Qed.

(** A message whose attachment has no payload: the [None] inside the
    attachment reaches the payload. *)
Example send_message_attachment_without_payload :
  send_message (Sample.msg "hello") Sample.recipient1
    (Some Sample.message_with_attachment) None None None "RESPONSE"
  = POk [("recipient", ODict [("id", OStr "1")]);
         ("message",
          ODict [("text", OStr "hi");
                 ("attachment", ODict [("type", OStr "image"); ("payload", ONone)])]);
         ("messaging_type", OStr "RESPONSE")].
Proof. vm_compute. reflexivity. Qed.

(** ** _normalize *)

Lemma normalize_plain_facts :
  ∀ v, plain v = true →
       none_free (_normalize v) = true
       ∧ plain (_normalize v) = true
       ∧ _normalize (_normalize v) = _normalize v.
Proof.
  fix IH 1. intros [| b | z | r | s | l | d | fields | p]; cbn [plain];
    try (intros _; by repeat split); [| |done].
  - intros Hl. cbn [_normalize none_free plain].
    assert (forallb none_free (map _normalize l) = true
            ∧ forallb plain (map _normalize l) = true
            ∧ map _normalize (map _normalize l) = map _normalize l) as (H1 & H2 & H3).
    { induction l as [|x l IHl]; [done|].
      cbn in Hl. apply andb_prop in Hl as [Hx Hl].
      destruct (IH x Hx) as (Hx1 & Hx2 & Hx3).
      destruct (IHl Hl) as (Hl1 & Hl2 & Hl3).
      cbn. by rewrite Hx1, Hx2, Hx3, Hl1, Hl2, Hl3. }
    by rewrite H1, H2, H3.
  - intros Hd. cbn [_normalize none_free plain].
    match goal with
    | |- context [ODict (?items d)] => set (items' := items)
    end.
    assert (forallb (fun kv => negb (is_None kv.2) && none_free kv.2) (items' d) = true
            ∧ forallb (fun kv => plain kv.2) (items' d) = true
            ∧ items' (items' d) = items' d) as (H1 & H2 & H3).
    { induction d as [|[k x] d IHd]; [done|].
      cbn in Hd. apply andb_prop in Hd as [Hx Hd].
      destruct (IH x Hx) as (Hx1 & Hx2 & Hx3).
      destruct (IHd Hd) as (Hd1 & Hd2 & Hd3).
      cbn [items']. fold items'.
      destruct (is_None x) eqn:Hn; [done|].
      cbn [forallb fst snd items']. fold items'.
      assert (is_None (_normalize x) = false) as Hn'.
      { destruct x; try done. }
      by rewrite Hn', Hx1, Hx2, Hx3, Hd1, Hd2, Hd3. }
    by rewrite H1, H2, H3.
Qed.

(** X23.  On a value without [to_python] objects, [_normalize] leaves no
    dict with a [None] value, however deep inside lists and dicts, and
    normalizing again changes nothing. *)
Theorem normalize_none_free (v : pyobj) :
  plain v = true →
  none_free (_normalize v) = true
  ∧ _normalize (_normalize v) = _normalize v.
Proof.
  intros H. destruct (normalize_plain_facts v H) as (H1 & _ & H3). by split.
Qed.

Lemma normalize_none_free_witness :
  none_free
    (_normalize (ODict [("a", ONone);
                        ("b", OList [ODict [("c", ONone); ("d", OInt 1)]; ONone])]))
  = true
  ∧ _normalize
      (_normalize (ODict [("a", ONone);
                          ("b", OList [ODict [("c", ONone); ("d", OInt 1)]; ONone])]))
    = _normalize (ODict [("a", ONone);
                         ("b", OList [ODict [("c", ONone); ("d", OInt 1)]; ONone])]).
Proof.
  apply (normalize_none_free
           (ODict [("a", ONone);
                   ("b", OList [ODict [("c", ONone); ("d", OInt 1)]; ONone])])).
  reflexivity.
Defined.

(** The result of [to_python] is returned as it is, so with such an object
    a [None] can survive and a second pass can change the value. *)
Example normalize_to_python :
  let v := OPy (ODict [("a", ONone)]) in
  none_free (_normalize v) = false ∧ _normalize (_normalize v) ≠ _normalize v.
Proof. split; [reflexivity | discriminate]. Qed.

(** ** Webhook *)

Section WebhookFacts.
Import Webhook.


(** X25.  [get] answers 200 with the challenge of the request only when
    the mode is [subscribe] and the token of the request equals the
    confirmation code; every other request that passes the address check
    gets 403 without a body.  Equality includes the missing case: with no
    confirmation code configured, a subscribe request without a token is
    answered with its challenge. *)
Theorem get_challenge (confirmation_code : option string) (request : Request) :
  validate_ip request = None →
  (∃ r, get confirmation_code request = Respond r
      ∧ (status r = 200%Z ∨ status r = 403%Z)
      ∧ (status r = 200%Z ↔
         query request !! "hub.mode" = Some "subscribe"
         ∧ query request !! "hub.verify_token" = confirmation_code)
      ∧ (status r = 200%Z → body r = query request !! "hub.challenge")
      ∧ (status r = 403%Z → body r = None))
  ∧ (confirmation_code = None →
     query request !! "hub.mode" = Some "subscribe" →
     query request !! "hub.verify_token" = None →
     get confirmation_code request
     = Respond {| status := 200; body := query request !! "hub.challenge" |}).
Proof.
  intros Hip. unfold get. rewrite Hip. split.
  - destruct (bool_decide (query request !! "hub.mode" = Some "subscribe")) eqn:Hm;
      destruct (bool_decide (query request !! "hub.verify_token" = confirmation_code))
        eqn:Ht; cbn [andb];
      (eexists; split; [reflexivity|]; cbn [status body]);
      try apply bool_decide_eq_true in Hm; try apply bool_decide_eq_true in Ht;
      try apply bool_decide_eq_false in Hm; try apply bool_decide_eq_false in Ht.
    + repeat split; try done. by left.
    + split; [by right|]. split; [|done]. split; [done | by intros [_ ?]].
    + split; [by right|]. split; [|done]. split; [done | by intros [? _]].
    + split; [by right|]. split; [|done]. split; [done | by intros [? _]].
  - intros -> Hm Ht. rewrite Hm, Ht. reflexivity.
Qed.

End WebhookFacts.

Lemma get_challenge_witness :
  (∃ r, Webhook.get (Some "secret") (Sample.subscribe_request (Some "guess"))
        = Webhook.Respond r
      ∧ (Webhook.status r = 200%Z ∨ Webhook.status r = 403%Z)
      ∧ (Webhook.status r = 200%Z ↔
         Webhook.query (Sample.subscribe_request (Some "guess")) !! "hub.mode"
         = Some "subscribe"
         ∧ Webhook.query (Sample.subscribe_request (Some "guess"))
           !! "hub.verify_token" = Some "secret")
      ∧ (Webhook.status r = 200%Z →
         Webhook.body r
         = Webhook.query (Sample.subscribe_request (Some "guess")) !! "hub.challenge")
      ∧ (Webhook.status r = 403%Z → Webhook.body r = None))
  ∧ Webhook.get None (Sample.subscribe_request None)
    = Webhook.Respond {| Webhook.status := 200; Webhook.body := Some "1158201444" |}.
Proof.
  split.
  - exact (proj1 (get_challenge (Some "secret")
                    (Sample.subscribe_request (Some "guess")) eq_refl)).
  - exact (proj2 (get_challenge None (Sample.subscribe_request None) eq_refl)
             eq_refl eq_refl eq_refl).
Defined.

(** ** The JSON library in use *)

Section JsonFacts.
Import Json.

Variables (environ : gset string) (importable : string → bool).

Lemma detect_spec libs :
  (detect libs environ importable = JSON
   ∧ Forall (fun l => ¬ usable environ importable l) libs)
  ∨ ∃ before json_lib after,
      libs = (before ++ json_lib :: after)%list
      ∧ detect libs environ importable = json_lib
      ∧ usable environ importable json_lib
      ∧ Forall (fun l => ¬ usable environ importable l) before.
Proof.
  induction libs as [|json_lib libs IH]; cbn [detect].
  - left. by split.
  - case_bool_decide as Hdis.
    { assert (¬ usable environ importable json_lib) as Hno
        by (intros Hu; destruct Hu as [Hn _]; done).
      destruct IH as [[H1 H2] | (before & l & after & -> & H1 & H2 & H3)].
      - left. split; [done|]. by constructor.
      - right. exists (json_lib :: before), l, after.
        repeat split; try done; try apply H2. by constructor. }
    destruct (importable json_lib) eqn:Himp.
    { right. exists [], json_lib, libs. repeat split; done. }
    assert (¬ usable environ importable json_lib) as Hno
      by (intros Hu; destruct Hu as [_ Hi]; congruence).
    destruct IH as [[H1 H2] | (before & l & after & -> & H1 & H2 & H3)].
    + left. split; [done|]. by constructor.
    + right. exists (json_lib :: before), l, after.
      repeat split; try done; try apply H2. by constructor.
Qed.

(** X26.  The mode is the first of [rapidjson], [orjson], [ujson] that is
    not disabled through the environment and can be imported; it is the
    standard [json] when there is none.  A library that is disabled is
    never the mode. *)
Theorem mode_first_usable :
  (mode environ importable = JSON
   ∧ Forall (fun l => ¬ usable environ importable l) [RAPIDJSON; ORJSON; UJSON])
  ∨ ∃ before json_lib after,
      [RAPIDJSON; ORJSON; UJSON] = (before ++ json_lib :: after)%list
      ∧ mode environ importable = json_lib
      ∧ usable environ importable json_lib
      ∧ Forall (fun l => ¬ usable environ importable l) before.
Proof. apply detect_spec. Qed.

End JsonFacts.

Example mode_disabled_rapidjson :
  Json.mode {[ "DISABLE_RAPIDJSON" ]} (fun _ => true) = Json.ORJSON
  ∧ Json.mode ∅ (fun _ => false) = Json.JSON.
Proof. split; reflexivity. Qed.

(** ** Request timeouts *)

Section TimeoutFacts.
Import FBTimeout.

(** X27.  Inside [with fb.request_timeout(t)] the timeout that [fb]
    reports is [t], as a [ClientTimeout], whatever timeout the instance was
    given, and [sentinel] for [t = None]; after the block the context
    variable is what it was before, whatever the body did and also when it
    raised, and the timeout of the instance is what the body left. *)
Theorem request_timeout_scope {A} (self : FB) (value : timeout_value)
    (body : FB → result A * FB) (default : option ClientTimeout) :
  _timeout self = Some default →
  timeout {| _timeout := _timeout self;
             _ctx_timeout := Some (_prepare_timeout value) |}
  = Ok match value with
       | TNone => Sentinel
       | TNumber n => Timeout {| total := Some n |}
       | TClient t => Timeout t
       end
  ∧ _ctx_timeout (request_timeout value body self).2 = _ctx_timeout self
  ∧ (request_timeout value body self).1
    = (body {| _timeout := _timeout self;
               _ctx_timeout := Some (_prepare_timeout value) |}).1
  ∧ _timeout (request_timeout value body self).2
    = _timeout (body {| _timeout := _timeout self;
                        _ctx_timeout := Some (_prepare_timeout value) |}).2.
Proof.
  intros Hd. split.
  - unfold timeout. cbn [_timeout _ctx_timeout]. rewrite Hd. by destruct value.
  - unfold request_timeout. by destruct (body _) as [r self'].
Qed.

(** The setter stores what [_prepare_timeout] makes of the value,
    which is a fixed point of it: a number becomes a [ClientTimeout] with
    that total, and preparing a prepared timeout changes nothing.  Once a
    timeout is set and no request timeout is active, the getter returns it,
    and [sentinel] after [del]. *)
Theorem timeout_set_get (self : FB) (value : timeout_value) :
  _ctx_timeout self = None →
  timeout (set_timeout self value)
  = Ok match _prepare_timeout value with
       | Some t => Timeout t
       | None => Sentinel
       end
  ∧ _prepare_timeout (match _prepare_timeout value with
                      | Some t => TClient t
                      | None => TNone
                      end)
    = _prepare_timeout value
  ∧ timeout (del_timeout (set_timeout self value)) = Ok Sentinel.
Proof.
  intros Hc. unfold timeout, del_timeout, set_timeout.
  cbn [_timeout _ctx_timeout]. rewrite Hc. by destruct value.
Qed.

(** X28.  As long as no timeout has been assigned to the instance, which
    is how [__init__] leaves it, reading [timeout] raises
    [AttributeError], also inside a [request_timeout] block: the getter
    evaluates [self._timeout] before it looks at the context variable. *)
Theorem timeout_unset (self : FB) (value : timeout_value) :
  _timeout self = None →
  timeout self = Raise (AttributeError "_timeout")
  ∧ (request_timeout value (fun fb => (timeout fb, fb)) self).1
    = Raise (AttributeError "_timeout").
Proof.
  intros H. unfold request_timeout, timeout. cbn [_timeout fst]. by rewrite H.
Qed.

End TimeoutFacts.

Lemma request_timeout_scope_witness :
  FBTimeout.timeout
    {| FBTimeout._timeout := Some (Some {| FBTimeout.total := Some (FBTimeout.NInt 60) |});
       FBTimeout._ctx_timeout := Some (FBTimeout._prepare_timeout
                                         (FBTimeout.TNumber (FBTimeout.NInt 5))) |}
  = Ok (FBTimeout.Timeout {| FBTimeout.total := Some (FBTimeout.NInt 5) |})
  ∧ FBTimeout._ctx_timeout
      (FBTimeout.request_timeout (FBTimeout.TNumber (FBTimeout.NInt 5))
         (fun fb => (Raise (A := unit) (HandlerError "boom"),
                     FBTimeout.set_timeout fb FBTimeout.TNone))
         (FBTimeout.set_timeout FBTimeout.FB_init
            (FBTimeout.TNumber (FBTimeout.NInt 60)))).2 = None.
Proof.
  pose proof (request_timeout_scope
                (FBTimeout.set_timeout FBTimeout.FB_init
                   (FBTimeout.TNumber (FBTimeout.NInt 60)))
                (FBTimeout.TNumber (FBTimeout.NInt 5))
                (fun fb => (Raise (A := unit) (HandlerError "boom"),
                            FBTimeout.set_timeout fb FBTimeout.TNone))
                (Some {| FBTimeout.total := Some (FBTimeout.NInt 60) |})
                eq_refl) as (H1 & H2 & _).
  split; [exact H1 | exact H2].
Defined.

Lemma timeout_set_get_witness :
  FBTimeout.timeout
    (FBTimeout.set_timeout FBTimeout.FB_init (FBTimeout.TNumber (FBTimeout.NInt 60)))
  = Ok (FBTimeout.Timeout {| FBTimeout.total := Some (FBTimeout.NInt 60) |}).
Proof.
  exact (proj1 (timeout_set_get FBTimeout.FB_init
                  (FBTimeout.TNumber (FBTimeout.NInt 60)) eq_refl)).
Defined.

Lemma timeout_unset_witness :
  FBTimeout.timeout FBTimeout.FB_init = Raise (AttributeError "_timeout")
  ∧ (FBTimeout.request_timeout (FBTimeout.TNumber (FBTimeout.NInt 5))
       (fun fb => (FBTimeout.timeout fb, fb)) FBTimeout.FB_init).1
    = Raise (AttributeError "_timeout").
Proof.
  exact (timeout_unset FBTimeout.FB_init (FBTimeout.TNumber (FBTimeout.NInt 5))
           eq_refl).
Defined.

(** ** The filters for one fixed command *)

Lemma slash_prefix p :
  in_str_or_list (String p "") (OneStr "/") = bool_decide (p = "/"%char).
Proof.
  cbn. rewrite andb_true_r, orb_false_r.
  destruct (Ascii.eqb_spec p "/") as [->|Hne].
  - by rewrite bool_decide_eq_true_2.
  - by rewrite bool_decide_eq_false_2.
Qed.

(** X29.  [CommandHelp], [CommandSettings], [CommandPrivacy] and
    [CommandStart] without deep link accept a message that starts with a
    prefix character and a command token without mention exactly when the
    prefix is the slash and the token, in lower case, is [help],
    [settings], [privacy] or [start] respectively. *)
Theorem fixed_command_filters (me : result string) (p : ascii)
    (cmd ws rest : string) (event : eventobj) (message : Message)
    (name : string) (filter : Command) :
  text message = String p cmd +:+ ws +:+ rest →
  PyStr.not_space p = true →
  PyStr.all PyStr.not_space cmd = true →
  PyStr.all PyStr.not_at cmd = true →
  PyStr.truthy ws = true →
  PyStr.all PyStr.isspace ws = true →
  (name, filter) ∈ [("help", CommandHelp_init); ("settings", CommandSettings_init);
                    ("privacy", CommandPrivacy_init);
                    ("start", start_command (CommandStart_init None))] →
  fres_truthy <$> Command_check me filter event message
  = Ok (bool_decide (p = "/"%char ∧ PyStr.lower cmd = name)).
Proof.
  intros Htext Hp Hcmd Hat Hws Hall Hin.
  assert (∀ name', commands filter = [name'] → prefixes filter = OneStr "/" →
          ignore_case filter = true →
          fres_truthy <$> Command_check me filter event message
          = Ok (bool_decide (p = "/"%char ∧ PyStr.lower cmd = name'))) as Hone.
  { intros name' Hc Hpre Hic. unfold Command_check.
    erewrite check_command_token by eassumption.
    rewrite Hc, Hpre, Hic, slash_prefix. unfold PyStr.mem.
    rewrite (bool_decide_ext (PyStr.lower cmd ∈ [name']) (PyStr.lower cmd = name'))
      by apply list_elem_of_singleton.
    rewrite <- bool_decide_and.
    by destruct (bool_decide (p = "/"%char ∧ PyStr.lower cmd = name')). }
  repeat (apply elem_of_cons in Hin as [Hin | Hin];
          [injection Hin as -> ->; by apply Hone |]).
  by apply elem_of_nil in Hin.
Qed.

Lemma fixed_command_filters_witness :
  fres_truthy <$> Command_check Sample.bot CommandHelp_init
                    (Sample.message_event "1" "2" "/HELP me") (Sample.msg "/HELP me")
  = Ok (bool_decide ("/"%char = "/"%char ∧ PyStr.lower "HELP" = "help")).
Proof.
  apply (fixed_command_filters Sample.bot "/" "HELP" " " "me"
           (Sample.message_event "1" "2" "/HELP me") (Sample.msg "/HELP me")
           "help" CommandHelp_init); try reflexivity.
  apply elem_of_cons. by left.
Defined.

(** [current_state] without arguments takes both ids from the context. *)
Lemma current_state_of_default : current_state_of None None = current_state.
Proof. reflexivity. Qed.
